(** * pycalendar: a one-month calendar page on a PDF canvas

    A shallow embedding of [src/pycalendar.py] and of the parts of its
    collaborators that decide its behaviour:

    - the Python standard library's [calendar] and [datetime] modules
      (CPython 3.11, the version the script says it was tested with), with
      the module-global first weekday that [calendar.setfirstweekday] sets;
    - reportlab's [Canvas], reduced to the graphics state the script touches
      (font, line width, the save/restore stack) and the stream of drawing
      operations it emits.

    [generate_pdf], which owns its canvas and writes a file, is modelled over
    the files on disk.

    Python integers are [Z].  Python floats are idealised as exact rationals
    [Q]: a literal such as [0.0025] denotes the rational 25/10000, and
    float equalities are stated with [==] ([Qeq]).  Exceptions are explicit:
    a computation returns the state it reached together with either a value
    or the exception it raised, because Python mutates objects in place and
    an exception does not roll mutations back. *)

From Stdlib Require Import ZArith QArith Qminmax Qround Lia Lqa.
From Stdlib Require Import DecimalString DecimalZ.
From stdpp Require Import gmap strings list fin_maps.

Open Scope Z_scope.

(** ** Exceptions and the state-and-exception monad *)

Inductive exn : Type :=
  | ZeroDivisionError
  | IndexError
  | KeyError
  | ValueError
  | IllegalMonthError (month : Z)
  | IllegalWeekdayError (weekday : Z)
  | RenderError (msg : string).

Inductive outcome (A : Type) : Type :=
  | Ret (a : A)
  | Raise (e : exn).
Arguments Ret {A} a.
Arguments Raise {A} e.

(** [Py S A]: a Python computation over mutable state [S].  The state that
    comes back with [Raise] is the state at the moment of the raise. *)
Definition Py (S A : Type) : Type := S -> S * outcome A.

Definition py_ret {S A} (a : A) : Py S A := fun s => (s, Ret a).

Definition py_raise {S A} (e : exn) : Py S A := fun s => (s, Raise e).

Definition py_bind {S A B} (m : Py S A) (f : A -> Py S B) : Py S B :=
  fun s =>
    match m s with
    | (s', Ret a) => f a s'
    | (s', Raise e) => (s', Raise e)
    end.

Definition py_pure {S A} (o : outcome A) : Py S A := fun s => (s, o).

#[global] Instance py_mret {S} : MRet (Py S) := fun A a => py_ret a.
#[global] Instance py_mbind {S} : MBind (Py S) := fun A B f m => py_bind m f.

(** [for x in xs: body(x)]: the loop stops at the first exception. *)
Fixpoint py_for {S A} (xs : list A) (body : A -> Py S unit) : Py S unit :=
  match xs with
  | [] => py_ret tt
  | x :: rest => body x;; py_for rest body
  end.

(** ** Python built-ins *)

(** [enumerate(xs)] *)
Fixpoint enumerate_from {A} (i : Z) (xs : list A) : list (Z * A) :=
  match xs with
  | [] => []
  | x :: rest => (i, x) :: enumerate_from (i + 1) rest
  end.

Definition enumerate {A} (xs : list A) : list (Z * A) := enumerate_from 0 xs.

(** [len(xs)] *)
Definition len {A} (xs : list A) : Z := Z.of_nat (length xs).

(** [str(n)] for an integer. *)
Definition str (n : Z) : string := NilZero.string_of_int (Z.to_int n).

(** [int(s)] for a string: decimal digits with an optional minus sign;
    [ValueError] otherwise. *)
Definition int (s : string) : outcome Z :=
  match NilZero.int_of_string s with
  | Some d => Ret (Z.of_int d)
  | None => Raise ValueError
  end.

(** [x / n] with a float [x] and an integer [n]. *)
Definition truediv (x : Q) (n : Z) : outcome Q :=
  if decide (n = 0) then Raise ZeroDivisionError else Ret (x / inject_Z n)%Q.

(** [range(start, stop, step)] for a positive [step], as offsets from 0. *)
Definition range_step (stop step : nat) : list nat :=
  (fun k => (k * step)%nat) <$> seq 0 (Nat.div (stop + step - 1) step).

(** [xs[i:j]] for [0 <= i <= j]: slices are clamped to the list. *)
Definition slice {A} (xs : list A) (i j : nat) : list A :=
  take (j - i) (drop i xs).

(** [int(b)] for a boolean used in arithmetic. *)
Definition Z_of_bool (b : bool) : Z := if b then 1 else 0.

(** ** The [datetime] module: proleptic Gregorian ordinals *)

Module datetime.

Definition MINYEAR : Z := 1.
Definition MAXYEAR : Z := 9999.

Definition _is_leap (year : Z) : bool :=
  (year mod 4 =? 0) && (negb (year mod 100 =? 0) || (year mod 400 =? 0)).

Definition _days_before_year (year : Z) : Z :=
  let y := year - 1 in
  y * 365 + y / 4 - y / 100 + y / 400.

Definition _DAYS_BEFORE_MONTH : list Z :=
  [-1; 0; 31; 59; 90; 120; 151; 181; 212; 243; 273; 304; 334].

Definition _days_before_month (year month : Z) : Z :=
  (_DAYS_BEFORE_MONTH !!! Z.to_nat month)
  + Z_of_bool ((2 <? month) && _is_leap year).

Definition _ymd2ord (year month day : Z) : Z :=
  _days_before_year year + _days_before_month year month + day.

(** [date(year, month, day).weekday()]: Monday is 0, Sunday is 6. *)
Definition date_weekday (year month day : Z) : Z :=
  (_ymd2ord year month day + 6) mod 7.

(** The part of a [datetime] object the program reads. *)
Record datetime : Type := { year : Z; month : Z }.

End datetime.

(** ** The [calendar] module *)

Module calendar.

Definition MONDAY : Z := 0.
Definition SUNDAY : Z := 6.
Definition February : Z := 2.

Definition mdays : list Z :=
  [0; 31; 28; 31; 30; 31; 30; 31; 31; 30; 31; 30; 31].

Definition isleap (year : Z) : bool :=
  (year mod 4 =? 0) && (negb (year mod 100 =? 0) || (year mod 400 =? 0)).

Definition weekday (year month day : Z) : Z :=
  let year :=
    if (datetime.MINYEAR <=? year) && (year <=? datetime.MAXYEAR)
    then year else 2000 + year mod 400 in
  datetime.date_weekday year month day.

(** [monthrange(year, month)]: weekday of the first of the month and the
    number of days in the month. *)
Definition monthrange (year month : Z) : outcome (Z * Z) :=
  if (1 <=? month) && (month <=? 12) then
    let day1 := weekday year month 1 in
    let ndays := (mdays !!! Z.to_nat month)
                 + Z_of_bool ((month =? February) && isleap year) in
    Ret (day1, ndays)
  else Raise (IllegalMonthError month).

(** [Calendar.itermonthdays], collected into a list. *)
Definition itermonthdays (firstweekday year month : Z) : outcome (list Z) :=
  match monthrange year month with
  | Ret (day1, ndays) =>
      let days_before := (day1 - firstweekday) mod 7 in
      let days_after := (firstweekday - day1 - ndays) mod 7 in
      Ret (replicate (Z.to_nat days_before) 0
           ++ seqZ 1 ndays
           ++ replicate (Z.to_nat days_after) 0)
  | Raise e => Raise e
  end.

(** [Calendar.monthdayscalendar]:
    [[days[i:i+7] for i in range(0, len(days), 7)]]. *)
Definition monthdayscalendar (firstweekday year month : Z)
  : outcome (list (list Z)) :=
  match itermonthdays firstweekday year month with
  | Ret days =>
      Ret ((fun i => slice days i (i + 7)) <$> range_step (length days) 7)
  | Raise e => Raise e
  end.

End calendar.

(** Module-level state and functions of [calendar]: the shared calendar
    object [c] keeps the first weekday; [setfirstweekday] writes it and
    [monthcalendar] reads it.  The state of these computations is the value
    of [c.firstweekday]. *)
Definition calendar_setfirstweekday (firstweekday : Z) : Py Z unit :=
  fun c_firstweekday =>
    if (calendar.MONDAY <=? firstweekday) && (firstweekday <=? calendar.SUNDAY)
    then (firstweekday, Ret tt)
    else (c_firstweekday, Raise (IllegalWeekdayError firstweekday)).

Definition calendar_monthcalendar (year month : Z) : Py Z (list (list Z)) :=
  fun c_firstweekday =>
    (c_firstweekday, calendar.monthdayscalendar c_firstweekday year month).

(** ** Value types of the program (lines 49-51) *)

Module Font.
Record t : Type := mk { name : string; size : Q }.
End Font.

Module Geom.
Record t : Type := mk { x : Q; y : Q; width : Q; height : Q }.
End Geom.

Module Size.
Record t : Type := mk { width : Q; height : Q }.
End Size.

(** ** reportlab's canvas *)

Module Canvas.

(** The operations written to the page stream.  Text is recorded with the
    font in force when it is drawn. *)
Inductive op : Type :=
  | OpSaveState
  | OpRestoreState
  | OpSetFont (psfontname : string) (size : Q)
  | OpSetLineWidth (width : Q)
  | OpRect (x y width height : Q)
  | OpDrawString (x y : Q) (text : string) (fontname : string) (fontsize : Q)
  | OpShowPage.

(** The state attributes that [saveState] pushes and [restoreState] pops. *)
Record gstate : Type := mkGstate {
  _fontname : string;
  _fontsize : Q;
  _lineWidth : Q
}.

Record t : Type := mk {
  gs : gstate;
  state_stack : list gstate;
  (* everything written so far, pages closed by [OpShowPage] *)
  stream : list op;
  (* graphics state that every new page starts from *)
  initial_gs : gstate;
  (* font metrics: [stringWidth(text, fontName, fontSize)] *)
  metrics : string -> string -> Q -> Q
}.

Definition emit (o : op) (c : t) : t :=
  mk (gs c) (state_stack c) (stream c ++ [o]) (initial_gs c) (metrics c).

Definition saveState : Py t unit := fun c =>
  (emit OpSaveState
     (mk (gs c) (gs c :: state_stack c) (stream c) (initial_gs c) (metrics c)),
   Ret tt).

Definition restoreState : Py t unit := fun c =>
  match state_stack c with
  | [] => (c, Raise IndexError)
  | saved :: rest =>
      (emit OpRestoreState
         (mk saved rest (stream c) (initial_gs c) (metrics c)),
       Ret tt)
  end.

Definition setFont (psfontname : string) (size : Q) : Py t unit := fun c =>
  (emit (OpSetFont psfontname size)
     (mk (mkGstate psfontname size (_lineWidth (gs c)))
         (state_stack c) (stream c) (initial_gs c) (metrics c)),
   Ret tt).

Definition setLineWidth (width : Q) : Py t unit := fun c =>
  (emit (OpSetLineWidth width)
     (mk (mkGstate (_fontname (gs c)) (_fontsize (gs c)) width)
         (state_stack c) (stream c) (initial_gs c) (metrics c)),
   Ret tt).

Definition rect (x y width height : Q) : Py t unit := fun c =>
  (emit (OpRect x y width height) c, Ret tt).

Definition drawString (x y : Q) (text : string) : Py t unit := fun c =>
  (emit (OpDrawString x y text (_fontname (gs c)) (_fontsize (gs c))) c,
   Ret tt).

Definition stringWidth (text fontName : string) (fontSize : Q) : Py t Q :=
  fun c => (c, Ret (metrics c text fontName fontSize)).

(** [showPage] closes the page and starts the next one from the initial
    graphics state with an empty state stack. *)
Definition showPage : Py t unit := fun c =>
  (mk (initial_gs c) [] (stream c ++ [OpShowPage]) (initial_gs c) (metrics c),
   Ret tt).

End Canvas.

(** ** The program *)

Open Scope Q_scope.

(** Line 42: the ordinal suffix table, keyed by a day number or by [None]. *)
Definition ORDINALS : gmap (option Z) string :=
  {[ Some 1%Z := "st"; Some 2%Z := "nd"; Some 3%Z := "rd";
     Some 21%Z := "st"; Some 22%Z := "nd"; Some 23%Z := "rd";
     Some 31%Z := "st";
     None := "th" ]}.

(** [d[k]] on a dict. *)
Definition getitem (d : gmap (option Z) string) (k : option Z)
  : outcome string :=
  match d !! k with
  | Some v => Ret v
  | None => Raise KeyError
  end.

(** [d.get(k, dflt)] on a dict. *)
Definition dict_get (d : gmap (option Z) string) (k : option Z) (dflt : string)
  : string := default dflt (d !! k).

(** Lines 54-59: the generator behind [with save_state(canvas):], run
    around [body].  An exception raised by [body] is thrown into the
    generator at its [yield]; nothing there catches it, so it leaves the
    generator before [restoreState] and propagates. *)
Definition save_state {A} (body : Py Canvas.t A) : Py Canvas.t A :=
  Canvas.saveState;;
  a ← body;
  Canvas.restoreState;;
  mret a.

(** The callback [cell_cb(canvas, day, rect, font, scale_factor)]. *)
Definition cell_renderer : Type :=
  Z -> Geom.t -> Font.t -> Q -> Py Canvas.t unit.

(** Lines 83-85: constants derived from the page rectangle. *)
Definition page_scale_factor (rect : Geom.t) : Q :=
  Qmin (Geom.width rect) (Geom.height rect).

Definition page_line_width (rect : Geom.t) : Q :=
  page_scale_factor rect * 0.0025.

Definition page_font (rect : Geom.t) : Font.t :=
  Font.mk "Helvetica" (page_scale_factor rect * 0.028).

(** Lines 89-92: room for the stroke width around the outermost cells. *)
Definition inset_rect (rect : Geom.t) : Geom.t :=
  let line_width := page_line_width rect in
  Geom.mk (Geom.x rect + line_width)
          (Geom.y rect + line_width)
          (Geom.width rect - (line_width * 2))
          (Geom.height rect - (line_width * 2)).

(** Line 93: [Size(rect.width / 7, rect.height / rows)]. *)
Definition page_cellsize (rect : Geom.t) (rows : Z) : outcome Size.t :=
  match truediv (Geom.height rect) rows with
  | Ret cell_height => Ret (Size.mk (Geom.width rect / 7) cell_height)
  | Raise e => Raise e
  end.

(** Lines 105-108: the rectangle handed to the callback for a cell. *)
Definition cell_geom (rect : Geom.t) (cellsize : Size.t) (rows row col : Z)
  : Geom.t :=
  Geom.mk (Geom.x rect + (Size.width cellsize * inject_Z col))
          (Geom.y rect + (inject_Z (rows - row) * Size.height cellsize))
          (Size.width cellsize)
          (Size.height cellsize).

(** Lines 99-109: one cell under the drawing-state guard. *)
Definition guarded_cell (cell_cb : cell_renderer) (font : Font.t)
    (line_width scale_factor : Q) (day : Z) (cell : Geom.t)
  : Py Canvas.t unit :=
  save_state (
    Canvas.setFont (Font.name font) (Font.size font);;
    Canvas.setLineWidth line_width;;
    cell_cb day cell font scale_factor).

(** Lines 80-113: everything [add_calendar_page] does once it holds the
    month grid [cal]. *)
Definition layout_page (cal : list (list Z)) (rect : Geom.t)
    (cell_cb : cell_renderer) : Py Canvas.t unit :=
  let scale_factor := page_scale_factor rect in
  let line_width := page_line_width rect in
  let font := page_font rect in
  let rows := len cal in
  let rect := inset_rect rect in
  cellsize ← py_pure (page_cellsize rect rows);
  py_for (enumerate cal) (fun '(row, week) =>
    py_for (enumerate week) (fun '(col, day) =>
      guarded_cell cell_cb font line_width scale_factor day
        (cell_geom rect cellsize rows row col)));;
  Canvas.showPage.

(** What one Python process holds between calls: the [calendar] module's
    first weekday and the canvas. *)
Record World : Type := mkWorld {
  calendar_firstweekday : Z;
  canvas : Canvas.t
}.

Definition on_calendar {A} (m : Py Z A) : Py World A := fun w =>
  let '(fwd, o) := m (calendar_firstweekday w) in (mkWorld fwd (canvas w), o).

Definition on_canvas {A} (m : Py Canvas.t A) : Py World A := fun w =>
  let '(c, o) := m (canvas w) in (mkWorld (calendar_firstweekday w) c, o).

(** Lines 78-79: the month grid. *)
Definition month_grid (datetime_obj : datetime.datetime) (first_weekday : Z)
  : Py Z (list (list Z)) :=
  calendar_setfirstweekday first_weekday;;
  calendar_monthcalendar (datetime.year datetime_obj)
                         (datetime.month datetime_obj).

(** Lines 62-113.  [first_weekday] is [None] when the caller leaves the
    keyword out; the default is [calendar.MONDAY]. *)
Definition add_calendar_page (rect : Geom.t) (datetime_obj : datetime.datetime)
    (cell_cb : cell_renderer) (first_weekday : option Z) : Py World unit :=
  let first_weekday := default calendar.MONDAY first_weekday in
  cal ← on_calendar (month_grid datetime_obj first_weekday);
  on_canvas (layout_page cal rect cell_cb).

(** Line 134: text margins inside a cell. *)
Definition cell_margin (font : Font.t) : Size.t :=
  Size.mk (Font.size font * 0.5) (Font.size font * 1.3).

(** Line 153: the font of the filler lines. *)
Definition small_font (scale_factor : Q) : Font.t :=
  Font.mk "Helvetica" (scale_factor * 0.018).

(** Line 140: [ORDINALS.get(int(day), ORDINALS[None])]. *)
Definition ordinal_lookup (day : string) : outcome string :=
  match int day with
  | Ret n =>
      match getitem ORDINALS None with
      | Ret dflt => Ret (dict_get ORDINALS (Some n) dflt)
      | Raise e => Raise e
      end
  | Raise e => Raise e
  end.

(** Lines 116-158. *)
Definition draw_cell : cell_renderer := fun day rect font scale_factor =>
  if decide (day = 0%Z) then mret tt
  else
    let margin := cell_margin font in
    Canvas.rect (Geom.x rect) (Geom.y rect - Geom.height rect)
                (Geom.width rect) (Geom.height rect);;
    let day := str day in
    ordinal_str ← py_pure (ordinal_lookup day);
    let text_x := Geom.x rect + Size.width margin in
    let text_y := Geom.y rect - Size.height margin in
    Canvas.drawString text_x text_y day;;
    number_width ← Canvas.stringWidth day (Font.name font) (Font.size font);
    Canvas.drawString (text_x + number_width)
                      (text_y + (Size.height margin * 0.1))
                      ordinal_str;;
    let smallfont := small_font scale_factor in
    Canvas.setFont (Font.name smallfont) (Font.size smallfont);;
    py_for (seqZ 1 3) (fun rownum =>
      Canvas.drawString text_x
                        (text_y - (Font.size smallfont * inject_Z rownum))
                        ("DUMMY " +:+ str rownum)).

(** ** The page orchestrator (lines 161-179)

    [generate_pdf] makes a canvas of its own, renders one page on it and
    saves it.  What the process keeps afterwards is the [calendar] module's
    first weekday and the files on disk; a saved file is the page size and
    the stream of the canvas.  reportlab's defaults (the graphics state a
    canvas starts from and the font metrics) are a parameter.  Writing the
    file is taken to succeed. *)

Record Reportlab : Type := mkReportlab {
  rl_initial_gs : Canvas.gstate;
  rl_metrics : string -> string -> Q -> Q
}.

Record Document : Type := mkDocument {
  doc_pagesize : Size.t;
  doc_stream : list Canvas.op
}.

Record Machine : Type := mkMachine {
  m_firstweekday : Z;
  m_files : gmap string Document
}.

(** [Canvas(filename, pagesize)] *)
Definition Canvas_new (rl : Reportlab) : Canvas.t :=
  Canvas.mk (rl_initial_gs rl) [] [] (rl_initial_gs rl) (rl_metrics rl).

(** The page under construction has content: something was written after
    the last [showPage]. *)
Definition page_has_content (stream : list Canvas.op) : bool :=
  match last stream with
  | None => false
  | Some Canvas.OpShowPage => false
  | Some _ => true
  end.

(** [canvas.save()]: a page with content is closed first; the result is the
    stream that goes into the file. *)
Definition Canvas_save (c : Canvas.t) : list Canvas.op :=
  if page_has_content (Canvas.stream c)
  then Canvas.stream (fst (Canvas.showPage c))
  else Canvas.stream c.

(** Lines 174-178: the page minus a margin of one fiftieth on each side. *)
Definition content_rect (size : Size.t) : Geom.t :=
  let wmar := Size.width size / 50 in
  let hmar := Size.height size / 50 in
  let size := Size.mk (Size.width size - (2 * wmar))
                      (Size.height size - (2 * hmar)) in
  Geom.mk wmar hmar (Size.width size) (Size.height size).

(** Lines 161-179.  [first_weekday] is [None] when the caller leaves it
    out; the default is [calendar.MONDAY]. *)
Definition generate_pdf (rl : Reportlab) (datetime_obj : datetime.datetime)
    (outfile : string) (size : Q * Q) (first_weekday : option Z)
  : Py Machine unit :=
  fun m =>
    let first_weekday := default calendar.MONDAY first_weekday in
    let size := Size.mk (fst size) (snd size) in
    let canvas := Canvas_new rl in
    match add_calendar_page (content_rect size) datetime_obj draw_cell
                            (Some first_weekday)
                            (mkWorld (m_firstweekday m) canvas) with
    | (mkWorld c_firstweekday canvas, Ret _) =>
        (mkMachine c_firstweekday
           (<[outfile := mkDocument size (Canvas_save canvas)]> (m_files m)),
         Ret tt)
    | (mkWorld c_firstweekday _, Raise e) =>
        (mkMachine c_firstweekday (m_files m), Raise e)
    end.

(** ** Vocabulary of the statements *)

(** The grid positions in the order the two loops of lines 96-97 visit
    them, each with the day found there. *)
Definition grid_cells (cal : list (list Z)) : list (Z * Z * Z) :=
  '(row, week) ← enumerate cal;
  '(col, day) ← enumerate week;
  [(row, col, day)].

(** All positions of a grid of [rows] rows and 7 columns, row by row. *)
Definition grid_positions (rows : Z) : list (Z * Z) :=
  row ← seqZ 0 rows; col ← seqZ 0 7; [(row, col)].



(** The canvas as the callback receives it inside the guard of lines
    99-103. *)
Definition cell_entry (font : Font.t) (line_width : Q) (c : Canvas.t)
  : Canvas.t :=
  fst ((Canvas.saveState;;
        Canvas.setFont (Font.name font) (Font.size font);;
        Canvas.setLineWidth line_width) c).

(** The cell size of line 93 for a grid that has rows. *)
Definition even_cellsize (rect : Geom.t) (rows : Z) : Size.t :=
  Size.mk (Geom.width rect / 7) (Geom.height rect / inject_Z rows).

(** The page rectangle scaled by 2 in both directions. *)
Definition doubled (rect : Geom.t) : Geom.t :=
  Geom.mk (Geom.x rect) (Geom.y rect)
          (2 * Geom.width rect) (2 * Geom.height rect).



(** The operations one cell adds to the stream when the default renderer
    runs under the guard: for a padding cell only the guard's own. *)
Definition draw_cell_ops (metrics : string -> string -> Q -> Q) (day : Z)
    (rect : Geom.t) (font : Font.t) (scale_factor : Q) : list Canvas.op :=
  if decide (day = 0%Z) then []
  else
    let margin := cell_margin font in
    let text_x := Geom.x rect + Size.width margin in
    let text_y := Geom.y rect - Size.height margin in
    let small := scale_factor * 0.018 in
    [ Canvas.OpRect (Geom.x rect) (Geom.y rect - Geom.height rect)
                    (Geom.width rect) (Geom.height rect);
      Canvas.OpDrawString text_x text_y (str day)
                          (Font.name font) (Font.size font);
      Canvas.OpDrawString
        (text_x + metrics (str day) (Font.name font) (Font.size font))
        (text_y + Size.height margin * 0.1)
        (dict_get ORDINALS (Some day) "th") (Font.name font) (Font.size font);
      Canvas.OpSetFont "Helvetica" small;
      Canvas.OpDrawString text_x (text_y - small * inject_Z 1)
                          "DUMMY 1" "Helvetica" small;
      Canvas.OpDrawString text_x (text_y - small * inject_Z 2)
                          "DUMMY 2" "Helvetica" small;
      Canvas.OpDrawString text_x (text_y - small * inject_Z 3)
                          "DUMMY 3" "Helvetica" small ].

Definition guarded_cell_ops (metrics : string -> string -> Q -> Q)
    (font : Font.t) (line_width scale_factor : Q) (day : Z) (cell : Geom.t)
  : list Canvas.op :=
  [ Canvas.OpSaveState;
    Canvas.OpSetFont (Font.name font) (Font.size font);
    Canvas.OpSetLineWidth line_width ]
  ++ draw_cell_ops metrics day cell font scale_factor
  ++ [ Canvas.OpRestoreState ].

(** The operations of all cells of a page, in the order of the loops. *)
Definition page_ops (metrics : string -> string -> Q -> Q)
    (cal : list (list Z)) (rect : Geom.t) : list Canvas.op :=
  '(row, col, day) ← grid_cells cal;
  guarded_cell_ops metrics (page_font rect) (page_line_width rect)
    (page_scale_factor rect) day
    (cell_geom (inset_rect rect)
       (even_cellsize (inset_rect rect) (len cal)) (len cal) row col).

(** A border lies within a rectangle whose [y] is its bottom edge; other
    operations are not constrained. *)
Definition border_within (rect : Geom.t) (o : Canvas.op) : Prop :=
  match o with
  | Canvas.OpRect x y width height =>
      Geom.x rect <= x /\ x + width <= Geom.x rect + Geom.width rect
      /\ Geom.y rect <= y /\ y + height <= Geom.y rect + Geom.height rect
  | _ => True
  end.



(** ** Sample inputs

    Concrete values on which the statements below are evaluated. *)

Definition april_2024 : datetime.datetime := datetime.Build_datetime 2024 4.

(** A fresh canvas: Helvetica 12, every glyph half as wide as the font size. *)
Definition fresh_gstate : Canvas.gstate := Canvas.mkGstate "Helvetica" 12 0.

Definition fresh_canvas : Canvas.t :=
  Canvas.mk fresh_gstate [] [] fresh_gstate
    (fun text _ fontSize =>
       inject_Z (Z.of_nat (String.length text)) * fontSize * 0.5).

(** A 700 x 500 point page area at the origin. *)
Definition sample_rect : Geom.t := Geom.mk 0 0 700 500.

Definition sample_cell : Geom.t := Geom.mk 0 100 10 10.


(** A renderer that changes font and line width and then fails. *)
Definition failing_renderer : cell_renderer := fun day rect font scale_factor =>
  Canvas.setFont "Courier" 99;;
  Canvas.setLineWidth 5;;
  py_raise (RenderError "cannot draw").

Definition fresh_world : World := mkWorld calendar.MONDAY fresh_canvas.

(** reportlab as installed: Helvetica 12, glyphs half as wide as the size. *)
Definition sample_reportlab : Reportlab :=
  mkReportlab fresh_gstate
    (fun text _ fontSize =>
       inject_Z (Z.of_nat (String.length text)) * fontSize * 0.5).

(** US letter, landscape, in points. *)
Definition letter_landscape : Q * Q := (792, 612).

Definition empty_machine : Machine := mkMachine calendar.MONDAY ∅.

(** * Properties *)

Open Scope Z_scope.

(** ** Monad equations *)

Lemma py_bind_ret_l {S A B} (a : A) (f : A -> Py S B) (s : S) :
  (mret a ≫= f) s = f a s.
Proof. reflexivity. Qed.

Lemma py_bind_assoc {S A B C} (m : Py S A) (f : A -> Py S B) (g : B -> Py S C)
    (s : S) :
  ((m ≫= f) ≫= g) s = (m ≫= (fun a => f a ≫= g)) s.
Proof.
  unfold mbind, py_mbind, py_bind.
  destruct (m s) as [s' [a|e]]; reflexivity.
Qed.

Lemma py_bind_ext_l {S A B} (m1 m2 : Py S A) (k : A -> Py S B) (s : S) :
  m1 s = m2 s -> (m1 ≫= k) s = (m2 ≫= k) s.
Proof. unfold mbind, py_mbind, py_bind. by intros ->. Qed.

Lemma py_for_app {S A} (xs ys : list A) (body : A -> Py S unit) (s : S) :
  py_for (xs ++ ys) body s = (py_for xs body;; py_for ys body) s.
Proof.
  revert s. induction xs as [|x xs IH]; intros s; simpl.
  - reflexivity.
  - unfold mbind, py_mbind, py_bind in *.
    destruct (body x s) as [s' [[]|e]]; [apply IH | reflexivity].
Qed.

(** A loop whose body never raises runs to the end. *)
Lemma py_for_total {S A} (xs : list A) (body : A -> Py S unit) :
  (forall x s, x ∈ xs -> exists s', body x s = (s', Ret tt)) ->
  forall s, exists s', py_for xs body s = (s', Ret tt).
Proof.
  induction xs as [|x xs IH]; intros Hbody s; simpl.
  - eexists; reflexivity.
  - destruct (Hbody x s) as [s1 Hs1]; [left|].
    unfold mbind, py_mbind, py_bind. rewrite Hs1.
    apply IH. intros y t Hy. apply Hbody. by right.
Qed.

(** ** Slicing a list into weeks *)

Section chunks.
Context {A : Type}.
Implicit Types (days : list A) (j m : nat).

Lemma slice_week days i : slice days i (i + 7) = take 7 (drop i days).
Proof. unfold slice. f_equal. lia. Qed.

Lemma concat_weeks days j m :
  concat ((fun i => slice days i (i + 7))
            <$> ((fun k => k * 7)%nat <$> seq j m))
  = take (7 * m) (drop (7 * j) days).
Proof.
  revert j. induction m as [|m IH]; intros j.
  - by rewrite Nat.mul_0_r.
  - cbn [seq fmap list_fmap concat]. rewrite slice_week, IH.
    replace (7 * S j)%nat with (j * 7 + 7)%nat by lia.
    replace (7 * j)%nat with (j * 7)%nat by lia.
    rewrite <- drop_drop, take_take_drop.
    f_equal; lia.
Qed.

Lemma range_step_weeks m :
  range_step (7 * m) 7 = (fun k => k * 7)%nat <$> seq 0 m.
Proof.
  unfold range_step. do 2 f_equal.
  replace (7 * m + 7 - 1)%nat with (6 + m * 7)%nat by lia.
  rewrite Nat.div_add by lia. reflexivity.
Qed.

Lemma weeks_length days m :
  length days = (7 * m)%nat ->
  Forall (fun week => length week = 7%nat)
         ((fun i => slice days i (i + 7)) <$> range_step (length days) 7).
Proof.
  intros Hlen. rewrite Hlen, range_step_weeks.
  rewrite Forall_fmap, Forall_fmap. apply Forall_forall.
  intros k Hk. apply elem_of_seq in Hk. simpl.
  rewrite slice_week, length_take, length_drop. lia.
Qed.

Lemma weeks_concat days m :
  length days = (7 * m)%nat ->
  concat ((fun i => slice days i (i + 7)) <$> range_step (length days) 7)
  = days.
Proof.
  intros Hlen. rewrite Hlen, range_step_weeks, concat_weeks.
  rewrite Nat.mul_0_r, drop_0. apply take_ge. lia.
Qed.

End chunks.

(** ** The days of a month *)

(** Known dates: 1 February 2024 was a Thursday in a leap year, 1 February
    2023 a Wednesday, 1 November 2026 a Sunday. *)
Example monthrange_feb_2024 : calendar.monthrange 2024 2 = Ret (3, 29).
Proof. reflexivity. Qed.

Example monthrange_feb_2023 : calendar.monthrange 2023 2 = Ret (2, 28).
Proof. reflexivity. Qed.

Example monthrange_nov_2026 : calendar.monthrange 2026 11 = Ret (6, 30).
Proof. reflexivity. Qed.

Example monthrange_month_13 :
  calendar.monthrange 2024 13 = Raise (IllegalMonthError 13).
Proof. reflexivity. Qed.

Lemma filter_replicate_zero n :
  filter (fun d : Z => d ≠ 0) (replicate n 0) = [].
Proof.
  induction n as [|n IH]; simpl; [reflexivity|].
  rewrite filter_cons_False by (intros H; by apply H). exact IH.
Qed.

Lemma filter_nonzero_all (l : list Z) :
  Forall (fun d => d ≠ 0) l -> filter (fun d : Z => d ≠ 0) l = l.
Proof.
  induction 1 as [|d l Hd _ IH]; [reflexivity|].
  rewrite filter_cons_True by exact Hd. by rewrite IH.
Qed.

Lemma filter_seqZ_nonzero m n :
  0 < m -> filter (fun d : Z => d ≠ 0) (seqZ m n) = seqZ m n.
Proof.
  intros Hm. apply filter_nonzero_all, Forall_forall.
  intros d Hd. apply elem_of_seqZ in Hd. lia.
Qed.

Lemma monthrange_valid year month :
  1 <= month <= 12 ->
  exists day1 ndays,
    calendar.monthrange year month = Ret (day1, ndays)
    /\ 0 <= day1 < 7 /\ 28 <= ndays <= 31.
Proof.
  intros Hm. unfold calendar.monthrange.
  replace ((1 <=? month) && (month <=? 12)) with true
    by (symmetry; apply andb_true_iff; split; apply Z.leb_le; lia).
  eexists _, _. split; [reflexivity|]. split.
  - unfold calendar.weekday, datetime.date_weekday. apply Z.mod_pos_bound. lia.
  - assert (Hcases : month = 1 \/ month = 2 \/ month = 3 \/ month = 4
                     \/ month = 5 \/ month = 6 \/ month = 7 \/ month = 8
                     \/ month = 9 \/ month = 10 \/ month = 11 \/ month = 12)
      by lia.
    destruct Hcases
      as [->|[->|[->|[->|[->|[->|[->|[->|[->|[->|[->| ->]]]]]]]]]]];
      simpl; try lia.
    unfold calendar.February. destruct (calendar.isleap year); simpl; lia.
Qed.

Lemma itermonthdays_valid firstweekday year month day1 ndays :
  calendar.monthrange year month = Ret (day1, ndays) ->
  0 <= ndays ->
  exists days m,
    calendar.itermonthdays firstweekday year month = Ret days
    /\ length days = (7 * m)%nat
    /\ filter (fun d : Z => d ≠ 0) days = seqZ 1 ndays.
Proof.
  intros Hrange Hn. unfold calendar.itermonthdays. rewrite Hrange.
  set (before := (day1 - firstweekday) mod 7).
  set (after := (firstweekday - day1 - ndays) mod 7).
  assert (Hb : 0 <= before < 7) by (apply Z.mod_pos_bound; lia).
  assert (Ha : 0 <= after < 7) by (apply Z.mod_pos_bound; lia).
  exists (replicate (Z.to_nat before) 0 ++ seqZ 1 ndays
          ++ replicate (Z.to_nat after) 0),
         (Z.to_nat ((before + ndays + after) / 7)).
  split; [reflexivity|]. split.
  - rewrite !length_app, !length_replicate, length_seqZ.
    assert ((before + ndays + after) mod 7 = 0).
    { subst before after. clear. Z.div_mod_to_equations. lia. }
    assert (0 <= (before + ndays + after) / 7) by (apply Z.div_pos; lia).
    assert (before + ndays + after = 7 * ((before + ndays + after) / 7))
      by (Z.div_mod_to_equations; lia).
    lia.
  - rewrite !filter_app, !filter_replicate_zero, filter_seqZ_nonzero by lia.
    by rewrite app_nil_r.
Qed.

(** The grid [calendar.monthcalendar] returns when the shared first weekday
    is [firstweekday]. *)
Lemma monthdayscalendar_valid firstweekday year month :
  1 <= month <= 12 ->
  exists cal day1 ndays,
    calendar.monthdayscalendar firstweekday year month = Ret cal
    /\ calendar.monthrange year month = Ret (day1, ndays)
    /\ 28 <= ndays <= 31
    /\ cal ≠ []
    /\ Forall (fun week => length week = 7%nat) cal
    /\ filter (fun d : Z => d ≠ 0) (concat cal) = seqZ 1 ndays.
Proof.
  intros Hm.
  destruct (monthrange_valid year month Hm) as (day1 & ndays & Hrange & _ & Hn).
  destruct (itermonthdays_valid firstweekday year month day1 ndays Hrange)
    as (days & m & Hdays & Hlen & Hfilter); [lia|].
  unfold calendar.monthdayscalendar. rewrite Hdays.
  eexists _, day1, ndays. split; [reflexivity|]. split; [exact Hrange|].
  split; [exact Hn|]. split; [|split].
  - intros Hnil. apply (f_equal (@concat Z)) in Hnil.
    rewrite (weeks_concat days m Hlen) in Hnil. subst days.
    simpl in Hfilter. symmetry in Hfilter.
    apply (f_equal length) in Hfilter. rewrite length_seqZ in Hfilter.
    simpl in Hfilter. lia.
  - by apply (weeks_length days m).
  - by rewrite (weeks_concat days m Hlen).
Qed.

Lemma month_grid_run dt first_weekday c_firstweekday :
  0 <= first_weekday <= 6 ->
  month_grid dt first_weekday c_firstweekday
  = (first_weekday,
     calendar.monthdayscalendar first_weekday
       (datetime.year dt) (datetime.month dt)).
Proof.
  intros Hfw.
  unfold month_grid, mbind, py_mbind, py_bind, calendar_setfirstweekday.
  unfold calendar.MONDAY, calendar.SUNDAY.
  replace ((0 <=? first_weekday) && (first_weekday <=? 6)) with true
    by (symmetry; apply andb_true_iff; split; apply Z.leb_le; lia).
  reflexivity.
Qed.



(** ** April 2024 *)

(** C7, as stated, fails: with Monday as the first weekday the grid of
    April 2024 has no first row [0,1,2,3,4,5,6]; 1 April 2024 is a Monday
    and sits in column 0. *)
Lemma april_2024_first_row_not_padded :
  ~ (exists cal,
       snd (month_grid april_2024 calendar.MONDAY 0) = Ret cal
       /\ length cal = 5%nat
       /\ cal !! 0%nat = Some [0; 1; 2; 3; 4; 5; 6]
       /\ exists monday, cal !! 4%nat = Some [monday; 30; 0; 0; 0; 0; 0]).
Proof.
  intros (cal & Hcal & _ & Hrow0 & _).
  vm_compute in Hcal. injection Hcal as <-. discriminate Hrow0.
Qed.

(** C7, amended. For April 2024 with Monday as the first weekday the grid
    has exactly 5 rows; its first row is [1,2,3,4,5,6,7]; day 30 is in
    row 4 at the Tuesday column (column 1), followed by zeros only. *)
Theorem april_2024_monday_grid (c_firstweekday : Z) :
  month_grid april_2024 calendar.MONDAY c_firstweekday
  = (calendar.MONDAY,
     Ret [[1; 2; 3; 4; 5; 6; 7];
          [8; 9; 10; 11; 12; 13; 14];
          [15; 16; 17; 18; 19; 20; 21];
          [22; 23; 24; 25; 26; 27; 28];
          [29; 30; 0; 0; 0; 0; 0]]).
Proof.
  rewrite month_grid_run by (unfold calendar.MONDAY; lia).
  vm_compute. reflexivity.
Qed.

(** ** Ordinal suffixes *)

Lemma int_str (n : Z) : int (str n) = Ret n.
Proof.
  unfold int, str. rewrite NilZero.isi.
  - by rewrite DecimalZ.of_to.
  - destruct n; simpl; try discriminate.
    intros [= H]. by apply DecimalPos.Unsigned.to_uint_nonnil in H.
  - destruct n; simpl; try discriminate.
    intros [= H]. by apply DecimalPos.Unsigned.to_uint_nonnil in H.
Qed.

Lemma ordinal_lookup_str (day : Z) :
  ordinal_lookup (str day) = Ret (dict_get ORDINALS (Some day) "th").
Proof. unfold ordinal_lookup. rewrite int_str. reflexivity. Qed.

(** C5. The suffix looked up for the days 1, 2, 3, 21, 22, 23 and 31 is
    st, nd, rd, st, nd, rd and st; for every other day (every day of 1..31
    not in that list, 4 and 11 among them) it is the default, th. *)
Theorem ordinal_lookup_table :
  ordinal_lookup (str 1) = Ret "st"
  /\ ordinal_lookup (str 2) = Ret "nd"
  /\ ordinal_lookup (str 3) = Ret "rd"
  /\ ordinal_lookup (str 21) = Ret "st"
  /\ ordinal_lookup (str 22) = Ret "nd"
  /\ ordinal_lookup (str 23) = Ret "rd"
  /\ ordinal_lookup (str 31) = Ret "st"
  /\ forall day : Z,
       day ∉ [1; 2; 3; 21; 22; 23; 31] ->
       ordinal_lookup (str day) = Ret "th".
Proof.
  repeat (split; [vm_compute; reflexivity|]).
  intros day Hday. rewrite ordinal_lookup_str. f_equal.
  unfold dict_get, ORDINALS.
  assert (Hne : forall k : Z,
             k ∈ [1; 2; 3; 21; 22; 23; 31] -> Some k ≠ Some day)
    by (intros k Hk [= ->]; exact (Hday Hk)).
  repeat (rewrite lookup_insert_ne by (apply Hne; set_solver)).
  by rewrite lookup_singleton_ne.
Qed.

Lemma ordinal_lookup_table_witness :
  ((4 ∉ [1; 2; 3; 21; 22; 23; 31]) /\ ordinal_lookup (str 4) = Ret "th")
  /\ ((11 ∉ [1; 2; 3; 21; 22; 23; 31]) /\ ordinal_lookup (str 11) = Ret "th").
Proof.
  destruct ordinal_lookup_table as (_ & _ & _ & _ & _ & _ & _ & Hother).
  assert (H4 : 4 ∉ [1; 2; 3; 21; 22; 23; 31])
    by (rewrite !not_elem_of_cons; repeat split; try lia;
        apply not_elem_of_nil).
  assert (H11 : 11 ∉ [1; 2; 3; 21; 22; 23; 31])
    by (rewrite !not_elem_of_cons; repeat split; try lia;
        apply not_elem_of_nil).
  split; (split; [assumption | by apply Hother]).
Defined.

(** ** The default cell renderer *)

(** The fast path of line 131. *)
Lemma draw_cell_day_zero (rect : Geom.t) (font : Font.t) (scale_factor : Q)
    (c : Canvas.t) :
  draw_cell 0 rect font scale_factor c = (c, Ret tt).
Proof. reflexivity. Qed.

(** C6. For every cell rectangle, font, scale factor and canvas,
    [draw_cell] with day 0 returns at once and leaves the canvas exactly as
    it was: nothing is added to the page stream (no border, no text) and
    the font, line width and state stack are untouched. *)
Theorem draw_cell_padding (rect : Geom.t) (font : Font.t) (scale_factor : Q)
    (c : Canvas.t) :
  draw_cell 0 rect font scale_factor c = (c, Ret tt).
Proof. apply draw_cell_day_zero. Qed.

(** What [draw_cell] does for a day of the month. *)
Lemma draw_cell_run (day : Z) (rect : Geom.t) (font : Font.t)
    (scale_factor : Q) (c : Canvas.t) :
  day ≠ 0 ->
  let margin := cell_margin font in
  let text_x := (Geom.x rect + Size.width margin)%Q in
  let text_y := (Geom.y rect - Size.height margin)%Q in
  let small := (scale_factor * 0.018)%Q in
  let fontname := Canvas._fontname (Canvas.gs c) in
  let fontsize := Canvas._fontsize (Canvas.gs c) in
  exists c',
    draw_cell day rect font scale_factor c = (c', Ret tt)
    /\ Canvas.stream c' =
       Canvas.stream c ++
       [ Canvas.OpRect (Geom.x rect) (Geom.y rect - Geom.height rect)%Q
                       (Geom.width rect) (Geom.height rect);
         Canvas.OpDrawString text_x text_y (str day) fontname fontsize;
         Canvas.OpDrawString
           (text_x
            + Canvas.metrics c (str day) (Font.name font) (Font.size font))%Q
           (text_y + Size.height margin * 0.1)%Q
           (dict_get ORDINALS (Some day) "th") fontname fontsize;
         Canvas.OpSetFont "Helvetica" small;
         Canvas.OpDrawString text_x (text_y - small * inject_Z 1)%Q
                             "DUMMY 1" "Helvetica" small;
         Canvas.OpDrawString text_x (text_y - small * inject_Z 2)%Q
                             "DUMMY 2" "Helvetica" small;
         Canvas.OpDrawString text_x (text_y - small * inject_Z 3)%Q
                             "DUMMY 3" "Helvetica" small ]
    /\ Canvas.gs c' =
       Canvas.mkGstate "Helvetica" small (Canvas._lineWidth (Canvas.gs c))
    /\ Canvas.state_stack c' = Canvas.state_stack c.
Proof.
  intros Hday. unfold draw_cell.
  destruct (decide (day = 0)) as [->|_]; [done|].
  unfold mbind, py_mbind, py_bind, py_pure. cbn [Canvas.rect fst snd].
  rewrite ordinal_lookup_str.
  eexists. split; [reflexivity|].
  cbn. rewrite <- !app_assoc. done.
Qed.


(** ** The drawing-state guard *)

Lemma cell_entry_stack font line_width c :
  Canvas.state_stack (cell_entry font line_width c)
  = Canvas.gs c :: Canvas.state_stack c.
Proof. reflexivity. Qed.

Lemma guarded_cell_unfold (cell_cb : cell_renderer) font line_width scale_factor
    day cell c :
  guarded_cell cell_cb font line_width scale_factor day cell c
  = match cell_cb day cell font scale_factor (cell_entry font line_width c) with
    | (c2, Ret a) => (Canvas.restoreState;; mret a) c2
    | (c2, Raise e) => (c2, Raise e)
    end.
Proof. reflexivity. Qed.

(** The renderer fails: the guard ends there, with the canvas as the
    renderer left it. *)
Lemma guarded_cell_raise (cell_cb : cell_renderer) font line_width scale_factor
    day cell c c2 e :
  cell_cb day cell font scale_factor (cell_entry font line_width c)
  = (c2, Raise e) ->
  guarded_cell cell_cb font line_width scale_factor day cell c = (c2, Raise e).
Proof. intros Hcb. by rewrite guarded_cell_unfold, Hcb. Qed.

(** The renderer returns with the state stack as it found it: the guard
    pops the state it pushed. *)
Lemma guarded_cell_ret (cell_cb : cell_renderer) font line_width scale_factor
    day cell c c2 :
  cell_cb day cell font scale_factor (cell_entry font line_width c)
  = (c2, Ret tt) ->
  Canvas.state_stack c2 = Canvas.state_stack (cell_entry font line_width c) ->
  guarded_cell cell_cb font line_width scale_factor day cell c
  = (Canvas.mk (Canvas.gs c) (Canvas.state_stack c)
               (Canvas.stream c2 ++ [Canvas.OpRestoreState])
               (Canvas.initial_gs c2) (Canvas.metrics c2),
     Ret tt).
Proof.
  intros Hcb Hstack. rewrite guarded_cell_unfold, Hcb.
  rewrite cell_entry_stack in Hstack.
  unfold mbind, py_mbind, py_bind, Canvas.restoreState. by rewrite Hstack.
Qed.

(** C2, as stated, fails: a renderer that sets Courier 99 and line width 5
    and then raises leaves the canvas with Courier 99 and line width 5
    after the guarded cell, not with the Helvetica 12 and line width 0
    the canvas had before the cell began. *)
Lemma guard_skips_restore_on_error :
  let c := fresh_canvas in
  let font := page_font sample_rect in
  let line_width := page_line_width sample_rect in
  let scale_factor := page_scale_factor sample_rect in
  let run := guarded_cell failing_renderer font line_width scale_factor
                          1 sample_cell c in
  snd run = Raise (RenderError "cannot draw")
  /\ Canvas._fontname (Canvas.gs c) = "Helvetica"
  /\ Canvas._fontname (Canvas.gs (fst run)) = "Courier"
  /\ ~ (Canvas._fontsize (Canvas.gs (fst run))
        == Canvas._fontsize (Canvas.gs c))%Q
  /\ ~ (Canvas._lineWidth (Canvas.gs (fst run))
        == Canvas._lineWidth (Canvas.gs c))%Q
  /\ Canvas.gs (fst run) ≠ Canvas.gs c.
Proof.
  cbv zeta. repeat split; try reflexivity; try discriminate.
Qed.

(** C2, amended. For every cell rendered under the guard:
    - if the renderer returns normally and leaves the canvas's state stack
      as it found it, then after the guarded cell the active font and line
      width (and the state stack) are those the canvas had before the cell
      began, and the stream ends with the restore operation;
    - if the renderer fails, the error leaves the guard at once and
      [restoreState] is not run: the canvas is exactly as the renderer left
      it, with the font and line width it set last.
    Restoration happens on the normal exit path only. *)
Theorem guarded_cell_exit_paths (cell_cb : cell_renderer) (font : Font.t)
    (line_width scale_factor : Q) (day : Z) (cell : Geom.t) (c : Canvas.t) :
  (forall c2,
     cell_cb day cell font scale_factor (cell_entry font line_width c)
     = (c2, Ret tt) ->
     Canvas.state_stack c2
     = Canvas.state_stack (cell_entry font line_width c) ->
     exists c3,
       guarded_cell cell_cb font line_width scale_factor day cell c
       = (c3, Ret tt)
       /\ Canvas.gs c3 = Canvas.gs c
       /\ Canvas.state_stack c3 = Canvas.state_stack c
       /\ Canvas.stream c3 = Canvas.stream c2 ++ [Canvas.OpRestoreState])
  /\ (forall c2 e,
        cell_cb day cell font scale_factor (cell_entry font line_width c)
        = (c2, Raise e) ->
        guarded_cell cell_cb font line_width scale_factor day cell c
        = (c2, Raise e)).
Proof.
  split.
  - intros c2 Hcb Hstack. eexists. split.
    + by apply guarded_cell_ret.
    + done.
  - intros c2 e Hcb. by apply guarded_cell_raise.
Qed.

Lemma guarded_cell_exit_paths_witness :
  let font := page_font sample_rect in
  let line_width := page_line_width sample_rect in
  let scale_factor := page_scale_factor sample_rect in
  (exists c3,
     guarded_cell draw_cell font line_width scale_factor 1 sample_cell
                  fresh_canvas
     = (c3, Ret tt)
     /\ Canvas.gs c3 = Canvas.gs fresh_canvas)
  /\ (exists c2,
        guarded_cell failing_renderer font line_width scale_factor 1 sample_cell
                     fresh_canvas
        = (c2, Raise (RenderError "cannot draw"))
        /\ Canvas._fontname (Canvas.gs c2) = "Courier").
Proof.
  intros font line_width scale_factor. split.
  - destruct (guarded_cell_exit_paths draw_cell font line_width scale_factor
                1 sample_cell fresh_canvas) as [Hret _].
    destruct (Hret (fst (draw_cell 1 sample_cell font scale_factor
                           (cell_entry font line_width fresh_canvas))))
      as (c3 & Hrun & Hgs & _); [reflexivity | reflexivity |].
    exists c3. split; [exact Hrun | exact Hgs].
  - destruct (guarded_cell_exit_paths failing_renderer font line_width
                scale_factor 1 sample_cell fresh_canvas) as [_ Hraise].
    eexists. split; [apply Hraise; reflexivity | reflexivity].
Defined.

(** The default renderer under the guard. *)
Lemma draw_cell_total day rect font scale_factor c :
  exists c2,
    draw_cell day rect font scale_factor c = (c2, Ret tt)
    /\ Canvas.state_stack c2 = Canvas.state_stack c.
Proof.
  destruct (decide (day = 0)) as [->|Hday].
  - exists c. by rewrite draw_cell_day_zero.
  - destruct (draw_cell_run day rect font scale_factor c Hday)
      as (c2 & Hrun & _ & _ & Hstack).
    by exists c2.
Qed.




(** ** No layout validation *)

Lemma page_cellsize_rows rect (rows : Z) :
  rows ≠ 0 ->
  page_cellsize rect rows = Ret (even_cellsize rect rows).
Proof.
  intros Hrows. unfold page_cellsize, truediv.
  by destruct (decide (rows = 0)).
Qed.




(** [add_calendar_page] with a first weekday in range, step by step. *)
Lemma add_calendar_page_run rect dt (cell_cb : cell_renderer) first_weekday w :
  let fwd := default calendar.MONDAY first_weekday in
  0 <= fwd <= 6 ->
  add_calendar_page rect dt cell_cb first_weekday w
  = match calendar.monthdayscalendar fwd (datetime.year dt)
                                     (datetime.month dt) with
    | Ret cal =>
        (mkWorld fwd (fst (layout_page cal rect cell_cb (canvas w))),
         snd (layout_page cal rect cell_cb (canvas w)))
    | Raise e => (mkWorld fwd (canvas w), Raise e)
    end.
Proof.
  intros fwd Hfwd. unfold add_calendar_page. fold fwd.
  unfold mbind, py_mbind, py_bind, on_calendar.
  rewrite month_grid_run by exact Hfwd.
  destruct (calendar.monthdayscalendar _ _ _) as [cal|e]; [|reflexivity].
  unfold on_canvas. simpl.
  by destruct (layout_page cal rect cell_cb (canvas w)).
Qed.



(** ** The first weekday is process-wide state *)

(** C9, as stated, fails: after a page rendered with Sunday as the first
    weekday the [calendar] module keeps Sunday, and a later
    [calendar.monthcalendar] that passes no first weekday returns a grid
    different from the one it returns in a process that rendered the same
    page with Monday. *)
Lemma first_weekday_outlives_the_call :
  let after fwd :=
    fst (add_calendar_page sample_rect april_2024 draw_cell (Some fwd)
                           fresh_world) in
  calendar_firstweekday fresh_world = calendar.MONDAY
  /\ calendar_firstweekday (after calendar.SUNDAY) = calendar.SUNDAY
  /\ snd (on_calendar (calendar_monthcalendar 2024 4) (after calendar.SUNDAY))
     ≠ snd (on_calendar (calendar_monthcalendar 2024 4)
                        (after calendar.MONDAY)).
Proof.
  cbv zeta. split; [reflexivity|]. split; [vm_compute; reflexivity|].
  vm_compute. discriminate.
Qed.

(** C9, amended. The first weekday is an input of each call of
    [add_calendar_page] (Monday when left out), and with a value in 0..6
    the call does not depend on the value the [calendar] module held
    before; but the call stores its first weekday in the [calendar] module,
    where it stays when the call is over (however the call ends), and a
    later [calendar.monthcalendar] computes its grid with it. *)
Theorem first_weekday_stored (rect : Geom.t) (dt : datetime.datetime)
    (cell_cb : cell_renderer) (first_weekday : option Z) (w : World) :
  let fwd := default calendar.MONDAY first_weekday in
  0 <= fwd <= 6 ->
  let w' := fst (add_calendar_page rect dt cell_cb first_weekday w) in
  calendar_firstweekday w' = fwd
  /\ (forall year month,
        on_calendar (calendar_monthcalendar year month) w'
        = (w', calendar.monthdayscalendar fwd year month))
  /\ (forall c_firstweekday,
        add_calendar_page rect dt cell_cb first_weekday
                          (mkWorld c_firstweekday (canvas w))
        = add_calendar_page rect dt cell_cb first_weekday w).
Proof.
  intros fwd Hfwd w'.
  assert (Hstored : calendar_firstweekday w' = fwd).
  { subst w'. rewrite add_calendar_page_run by exact Hfwd.
    by destruct (calendar.monthdayscalendar _ _ _). }
  split; [exact Hstored|]. split.
  - intros year month. unfold on_calendar, calendar_monthcalendar.
    clearbody w'. destruct w' as [stored c']. simpl in *. by subst stored.
  - intros c_firstweekday. by rewrite !add_calendar_page_run by exact Hfwd.
Qed.

Lemma first_weekday_stored_witness :
  let w' := fst (add_calendar_page sample_rect april_2024 draw_cell
                                   (Some calendar.SUNDAY) fresh_world) in
  0 <= calendar.SUNDAY <= 6
  /\ calendar_firstweekday w' = calendar.SUNDAY.
Proof.
  intros w'. split; [unfold calendar.SUNDAY; lia|].
  apply (first_weekday_stored sample_rect april_2024 draw_cell
           (Some calendar.SUNDAY) fresh_world).
  simpl. unfold calendar.SUNDAY. lia.
Defined.

(** ** Scaling the page *)

Open Scope Q_scope.

Lemma Qmin_double (a b : Q) : Qmin (2 * a) (2 * b) == 2 * Qmin a b.
Proof.
  destruct (Q.min_spec a b) as [[Hlt ->]|[Hle ->]].
  - rewrite Q.min_l; [reflexivity | lra].
  - rewrite Q.min_r; [reflexivity | lra].
Qed.

Lemma page_scale_factor_doubled rect :
  page_scale_factor (doubled rect) == 2 * page_scale_factor rect.
Proof. unfold page_scale_factor, doubled. simpl. apply Qmin_double. Qed.

Lemma page_cellsize_doubled rect (rows : Z) s1 s2 :
  page_cellsize (inset_rect rect) rows = Ret s1 ->
  page_cellsize (inset_rect (doubled rect)) rows = Ret s2 ->
  Size.width s2 == 2 * Size.width s1 /\ Size.height s2 == 2 * Size.height s1.
Proof.
  unfold page_cellsize, truediv.
  destruct (decide (rows = 0%Z)) as [|Hrows]; [discriminate|].
  intros [= <-] [= <-]. cbn [Size.width Size.height].
  pose proof (page_scale_factor_doubled rect) as Hsf.
  unfold inset_rect, page_line_width. cbn [Geom.width Geom.height doubled].
  rewrite Hsf.
  assert (~ inject_Z rows == 0).
  { intros H. apply Hrows. apply (inject_Z_injective rows 0). exact H. }
  split; field; assumption.
Qed.

(** C8. Doubling the width and the height of the page rectangle doubles
    the scale factor and with it the line width ([scale * 0.0025]), the
    default font size ([scale * 0.028]), both text margins of a cell
    ([font.size * 0.5] and [font.size * 1.3]) and the small font size
    ([scale * 0.018]); it also doubles the inset rectangle's extent, the
    cell size, and the offset of every cell from the page origin, so every
    length on the page scales by the same factor 2. *)
Theorem page_scale_doubling (rect : Geom.t) :
  let big := doubled rect in
  page_scale_factor big == 2 * page_scale_factor rect
  /\ page_line_width big == 2 * page_line_width rect
  /\ Font.name (page_font big) = Font.name (page_font rect)
  /\ Font.size (page_font big) == 2 * Font.size (page_font rect)
  /\ Size.width (cell_margin (page_font big))
     == 2 * Size.width (cell_margin (page_font rect))
  /\ Size.height (cell_margin (page_font big))
     == 2 * Size.height (cell_margin (page_font rect))
  /\ Font.size (small_font (page_scale_factor big))
     == 2 * Font.size (small_font (page_scale_factor rect))
  /\ Geom.width (inset_rect big) == 2 * Geom.width (inset_rect rect)
  /\ Geom.height (inset_rect big) == 2 * Geom.height (inset_rect rect)
  /\ forall (rows row col : Z) s1 s2,
       page_cellsize (inset_rect rect) rows = Ret s1 ->
       page_cellsize (inset_rect big) rows = Ret s2 ->
       let cell1 := cell_geom (inset_rect rect) s1 rows row col in
       let cell2 := cell_geom (inset_rect big) s2 rows row col in
       Geom.width cell2 == 2 * Geom.width cell1
       /\ Geom.height cell2 == 2 * Geom.height cell1
       /\ Geom.x cell2 - Geom.x big == 2 * (Geom.x cell1 - Geom.x rect)
       /\ Geom.y cell2 - Geom.y big == 2 * (Geom.y cell1 - Geom.y rect).
Proof.
  intros big. subst big.
  pose proof (page_scale_factor_doubled rect) as Hsf.
  assert (Hlw : page_line_width (doubled rect) == 2 * page_line_width rect)
    by (unfold page_line_width; rewrite Hsf; ring).
  split; [exact Hsf|]. split; [exact Hlw|]. split; [reflexivity|].
  unfold page_font, cell_margin, small_font.
  cbn [Font.size Size.width Size.height].
  do 4 (split; [rewrite Hsf; ring|]).
  unfold inset_rect. cbn [Geom.x Geom.y Geom.width Geom.height].
  do 2 (split; [rewrite Hlw; cbn [doubled Geom.width Geom.height]; ring|]).
  intros rows row col s1 s2 Hs1 Hs2.
  destruct (page_cellsize_doubled rect rows s1 s2 Hs1 Hs2) as [Hw Hh].
  unfold cell_geom.
  cbn [Geom.x Geom.y Geom.width Geom.height].
  rewrite Hw, Hh, !Hlw. cbn [doubled Geom.x Geom.y].
  repeat split; ring.
Qed.

Lemma page_scale_doubling_witness :
  let s1 := Size.mk (Geom.width (inset_rect sample_rect) / 7)
                    (Geom.height (inset_rect sample_rect) / inject_Z 5) in
  let s2 := Size.mk (Geom.width (inset_rect (doubled sample_rect)) / 7)
                    (Geom.height (inset_rect (doubled sample_rect))
                     / inject_Z 5) in
  page_cellsize (inset_rect sample_rect) 5 = Ret s1
  /\ page_cellsize (inset_rect (doubled sample_rect)) 5 = Ret s2
  /\ Geom.width (cell_geom (inset_rect (doubled sample_rect)) s2 5 0 1)
     == 2 * Geom.width (cell_geom (inset_rect sample_rect) s1 5 0 1).
Proof.
  intros s1 s2.
  destruct (page_scale_doubling sample_rect)
    as (_ & _ & _ & _ & _ & _ & _ & _ & _ & Hcells).
  split; [reflexivity|]. split; [reflexivity|].
  apply (Hcells 5%Z 0%Z 1%Z s1 s2); reflexivity.
Defined.

(** ** The cells of a page *)

Lemma py_for_bind {S A B} (xs : list A) (f : A -> list B)
    (body : B -> Py S unit) (s : S) :
  py_for (xs ≫= f) body s = py_for xs (fun x => py_for (f x) body) s.
Proof.
  revert s. induction xs as [|x xs IH]; intros s; [reflexivity|].
  rewrite bind_cons, py_for_app. simpl.
  unfold mbind at 1 3, py_mbind, py_bind.
  destruct (py_for (f x) body s) as [s' [[]|e]]; [apply IH | reflexivity].
Qed.

Lemma py_for_ext {S A} (xs : list A) (body1 body2 : A -> Py S unit) :
  (forall x s, body1 x s = body2 x s) ->
  forall s, py_for xs body1 s = py_for xs body2 s.
Proof.
  intros Hext. induction xs as [|x xs IH]; intros s; [reflexivity|].
  simpl. unfold mbind, py_mbind, py_bind. rewrite Hext.
  destruct (body2 x s) as [s' [[]|e]]; [apply IH | reflexivity].
Qed.

(** The two nested loops visit [grid_cells] in order. *)
Lemma py_for_grid_cells {S} (cal : list (list Z))
    (body : Z -> Z -> Z -> Py S unit) (s : S) :
  py_for (enumerate cal) (fun '(row, week) =>
    py_for (enumerate week) (fun '(col, day) => body row col day)) s
  = py_for (grid_cells cal) (fun '(row, col, day) => body row col day) s.
Proof.
  unfold grid_cells. rewrite py_for_bind.
  apply py_for_ext. intros [row week] s'.
  rewrite py_for_bind. apply py_for_ext. intros [col day] s''.
  simpl. unfold mbind, py_mbind, py_bind.
  by destruct (body row col day s'') as [s3 [[]|e]].
Qed.


Lemma enumerate_from_positions {A} (i : Z) (xs : list A) :
  fst <$> enumerate_from i xs = seqZ i (len xs).
Proof.
  revert i. induction xs as [|y xs IH]; intros i; [reflexivity|].
  simpl. rewrite IH. unfold len. simpl length.
  rewrite (seqZ_cons i) by lia. do 2 f_equal; lia.
Qed.

Lemma week_positions (row : Z) (week : list Z) :
  (fun '(r, col, _) => (r, col))
    <$> (enumerate week ≫= fun '(col, day) => [(row, col, day)])
  = (seqZ 0 (len week) ≫= fun col => [(row, col)]).
Proof.
  unfold enumerate. rewrite <- enumerate_from_positions.
  generalize 0%Z. induction week as [|day week IH]; intros i; [reflexivity|].
  simpl. by rewrite IH.
Qed.

Lemma grid_cells_positions_from (i : Z) (cal : list (list Z)) :
  Forall (fun week => length week = 7%nat) cal ->
  (fun '(row, col, _) => (row, col))
    <$> (enumerate_from i cal ≫= fun '(row, week) =>
           enumerate week ≫= fun '(col, day) => [(row, col, day)])
  = (seqZ i (len cal) ≫= fun row => seqZ 0 7 ≫= fun col => [(row, col)]).
Proof.
  intros Hcols. revert i.
  induction Hcols as [|week cal Hweek _ IH]; intros i; [reflexivity|].
  simpl enumerate_from. rewrite bind_cons, fmap_app, IH, week_positions.
  unfold len. rewrite Hweek. simpl length.
  rewrite (seqZ_cons i) by lia. rewrite bind_cons.
  do 3 f_equal; lia.
Qed.

Lemma grid_cells_positions (cal : list (list Z)) :
  Forall (fun week => length week = 7%nat) cal ->
  (fun '(row, col, _) => (row, col)) <$> grid_cells cal
  = grid_positions (len cal).
Proof. apply grid_cells_positions_from. Qed.

Lemma elem_of_grid_positions (rows row col : Z) :
  (row, col) ∈ grid_positions rows
  <-> (0 <= row < rows)%Z /\ (0 <= col < 7)%Z.
Proof.
  unfold grid_positions. rewrite list_elem_of_bind. split.
  - intros (r & (cl & [= -> ->]%list_elem_of_singleton & Hc)%list_elem_of_bind
            & Hr).
    apply elem_of_seqZ in Hc, Hr. lia.
  - intros [Hr Hc]. exists row. split; [|apply elem_of_seqZ; lia].
    apply list_elem_of_bind. exists col.
    split; [by apply list_elem_of_singleton | apply elem_of_seqZ; lia].
Qed.



(** ** Tiling *)







Section tiling.
Variables (rect : Geom.t) (rows : Z).
Hypothesis rows_pos : (0 < rows)%Z.
Hypothesis width_pos : 0 < Geom.width rect.
Hypothesis height_pos : 0 < Geom.height rect.

Lemma cellsize_columns :
  7 * Size.width (even_cellsize rect rows) == Geom.width rect.
Proof using Type. unfold even_cellsize. simpl. field. Qed.

Lemma cellsize_rows :
  inject_Z rows * Size.height (even_cellsize rect rows) == Geom.height rect.
Proof using rows_pos.
  unfold even_cellsize. simpl. field.
  intros H. apply (inject_Z_injective rows 0) in H. lia.
Qed.

Lemma cellsize_pos :
  0 < Size.width (even_cellsize rect rows)
  /\ 0 < Size.height (even_cellsize rect rows).
Proof using rows_pos width_pos height_pos.
  pose proof cellsize_columns. pose proof cellsize_rows.
  assert (0 < inject_Z rows)
    by (change 0 with (inject_Z 0); by rewrite <- Zlt_Qlt).
  split; nra.
Qed.




End tiling.

Lemma inset_rect_positive (rect : Geom.t) :
  0 < Geom.width rect -> 0 < Geom.height rect ->
  0 < Geom.width (inset_rect rect) /\ 0 < Geom.height (inset_rect rect).
Proof.
  intros Hw Hh. unfold inset_rect, page_line_width, page_scale_factor.
  cbn [Geom.width Geom.height].
  pose proof (Q.le_min_l (Geom.width rect) (Geom.height rect)).
  pose proof (Q.le_min_r (Geom.width rect) (Geom.height rect)).
  split; lra.
Qed.

Lemma layout_page_run (cal : list (list Z)) (rect : Geom.t)
    (cell_cb : cell_renderer) (c : Canvas.t) :
  cal ≠ [] ->
  layout_page cal rect cell_cb c
  = (py_for (grid_cells cal) (fun '(row, col, day) =>
       guarded_cell cell_cb (page_font rect) (page_line_width rect)
         (page_scale_factor rect) day
         (cell_geom (inset_rect rect)
            (even_cellsize (inset_rect rect) (len cal)) (len cal) row col));;
     Canvas.showPage) c.
Proof.
  intros Hcal. unfold layout_page.
  rewrite page_cellsize_rows by (destruct cal; [done | unfold len; simpl; lia]).
  unfold mbind at 1, py_mbind at 1, py_bind at 1, py_pure.
  apply py_bind_ext_l.
  exact (py_for_grid_cells cal
           (fun row col day =>
              guarded_cell cell_cb (page_font rect) (page_line_width rect)
                (page_scale_factor rect) day
                (cell_geom (inset_rect rect)
                   (even_cellsize (inset_rect rect) (len cal)) (len cal)
                   row col)) c).
Qed.



(** * Further properties of the program *)

Open Scope Z_scope.

(** ** Shape of the month grid *)

Lemma itermonthdays_run firstweekday year month day1 ndays :
  calendar.monthrange year month = Ret (day1, ndays) ->
  calendar.itermonthdays firstweekday year month
  = Ret (replicate (Z.to_nat ((day1 - firstweekday) mod 7)) 0
         ++ seqZ 1 ndays
         ++ replicate (Z.to_nat ((firstweekday - day1 - ndays) mod 7)) 0).
Proof. intros Hrange. unfold calendar.itermonthdays. by rewrite Hrange. Qed.

Lemma itermonthdays_length (before ndays after : Z) :
  0 <= ndays -> before = before mod 7 -> after = after mod 7 ->
  (before + ndays + after) mod 7 = 0 ->
  length (replicate (Z.to_nat before) 0 ++ seqZ 1 ndays
          ++ replicate (Z.to_nat after) 0)
  = (7 * Z.to_nat ((before + ndays + after) / 7))%nat.
Proof.
  intros Hn Hb Ha Hmod.
  rewrite !length_app, !length_replicate, length_seqZ.
  assert (0 <= before < 7) by (rewrite Hb; apply Z.mod_pos_bound; lia).
  assert (0 <= after < 7) by (rewrite Ha; apply Z.mod_pos_bound; lia).
  assert (0 <= (before + ndays + after) / 7) by (apply Z.div_pos; lia).
  assert (before + ndays + after = 7 * ((before + ndays + after) / 7))
    by (Z.div_mod_to_equations; lia).
  lia.
Qed.

Lemma weeks_count {A} (days : list A) m :
  length days = (7 * m)%nat ->
  length ((fun i => slice days i (i + 7)) <$> range_step (length days) 7) = m.
Proof.
  intros ->. by rewrite range_step_weeks, !length_fmap, length_seq.
Qed.

Lemma weeks_lookup {A} (days : list A) m (k j : nat) :
  length days = (7 * m)%nat -> (k < m)%nat -> (j < 7)%nat ->
  exists week,
    ((fun i => slice days i (i + 7)) <$> range_step (length days) 7) !! k
    = Some week
    /\ week !! j = days !! (7 * k + j)%nat.
Proof.
  intros Hlen Hk Hj. rewrite Hlen, range_step_weeks.
  exists (take 7 (drop (k * 7) days)). split.
  - rewrite !list_lookup_fmap, lookup_seq_lt by exact Hk. simpl.
    by rewrite slice_week.
  - rewrite lookup_take_lt by exact Hj. rewrite lookup_drop.
    f_equal. lia.
Qed.

Lemma length_bind_const {A B} (f : A -> list B) (l : list A) (n : nat) :
  (forall x, length (f x) = n) -> length (l ≫= f) = (n * length l)%nat.
Proof.
  intros Hf. induction l as [|x l IH]; [simpl; lia|].
  rewrite bind_cons, length_app, Hf, IH. simpl. lia.
Qed.

(** The grid of a month, with the quantities [itermonthdays] computes. *)
Lemma monthdayscalendar_shape firstweekday year month :
  1 <= month <= 12 ->
  exists cal day1 ndays days,
    calendar.monthdayscalendar firstweekday year month = Ret cal
    /\ calendar.monthrange year month = Ret (day1, ndays)
    /\ 0 <= day1 < 7 /\ 28 <= ndays <= 31
    /\ days = replicate (Z.to_nat ((day1 - firstweekday) mod 7)) 0
              ++ seqZ 1 ndays
              ++ replicate (Z.to_nat ((firstweekday - day1 - ndays) mod 7)) 0
    /\ cal = (fun i => slice days i (i + 7)) <$> range_step (length days) 7
    /\ length days
       = (7 * Z.to_nat (((day1 - firstweekday) mod 7 + ndays
                         + (firstweekday - day1 - ndays) mod 7) / 7))%nat.
Proof.
  intros Hm.
  destruct (monthrange_valid year month Hm)
    as (day1 & ndays & Hrange & Hd & Hn).
  eexists _, day1, ndays, _.
  unfold calendar.monthdayscalendar.
  rewrite (itermonthdays_run _ _ _ _ _ Hrange).
  split; [reflexivity|]. split; [exact Hrange|].
  split; [exact Hd|]. split; [exact Hn|].
  split; [reflexivity|]. split; [reflexivity|].
  apply itermonthdays_length.
  - lia.
  - by rewrite Z.mod_mod.
  - by rewrite Z.mod_mod.
  - clear. Z.div_mod_to_equations. lia.
Qed.

(** X1. For every month 1..12 and first weekday 0..6 the month grid has
    4, 5 or 6 rows, hence 28, 35 or 42 cells, and the cell size of line 93
    is computed without a division by zero. *)
Theorem month_grid_rows (dt : datetime.datetime)
    (first_weekday c_firstweekday : Z) (rect : Geom.t) :
  1 <= datetime.month dt <= 12 ->
  0 <= first_weekday <= 6 ->
  exists cal,
    month_grid dt first_weekday c_firstweekday = (first_weekday, Ret cal)
    /\ 4 <= len cal <= 6
    /\ Z.of_nat (length (grid_cells cal)) = 7 * len cal
    /\ page_cellsize rect (len cal) = Ret (even_cellsize rect (len cal)).
Proof.
  intros Hm Hfw.
  destruct (monthdayscalendar_shape first_weekday (datetime.year dt)
              (datetime.month dt) Hm)
    as (cal & day1 & ndays & days & Hcal & _ & Hd & Hn & Hdays & -> & Hlen).
  eexists. rewrite month_grid_run, Hcal by exact Hfw.
  split; [reflexivity|].
  set (before := (day1 - first_weekday) mod 7) in *.
  set (after := (first_weekday - day1 - ndays) mod 7) in *.
  assert (Hb : 0 <= before < 7) by (apply Z.mod_pos_bound; lia).
  assert (Ha : 0 <= after < 7) by (apply Z.mod_pos_bound; lia).
  set (m := Z.to_nat ((before + ndays + after) / 7)) in *.
  assert (Hrows : len ((fun i => slice days i (i + 7))
                         <$> range_step (length days) 7) = Z.of_nat m)
    by (unfold len; by rewrite (weeks_count days m Hlen)).
  assert (Hm46 : 4 <= Z.of_nat m <= 6).
  { assert (Htotal : Z.of_nat (length days) = before + ndays + after).
    { rewrite Hdays, !length_app, !length_replicate, length_seqZ. lia. }
    lia. }
  rewrite Hrows. split; [exact Hm46|]. split.
  - pose proof (f_equal length
                  (grid_cells_positions _ (weeks_length days m Hlen))) as Hpos.
    rewrite length_fmap in Hpos. rewrite Hpos, Hrows.
    unfold grid_positions.
    rewrite (length_bind_const _ _ 7%nat) by (intros row; reflexivity).
    rewrite length_seqZ. lia.
  - apply page_cellsize_rows. lia.
Qed.

Lemma month_grid_rows_witness :
  exists cal,
    month_grid april_2024 calendar.SUNDAY 0 = (calendar.SUNDAY, Ret cal)
    /\ 4 <= len cal <= 6.
Proof.
  destruct (month_grid_rows april_2024 calendar.SUNDAY 0 sample_rect)
    as (cal & Hrun & Hrows & _); [simpl; lia | unfold calendar.SUNDAY; lia |].
  exists cal. split; [exact Hrun | exact Hrows].
Defined.

Lemma weekday_of_day (year month day : Z) :
  calendar.weekday year month day
  = (calendar.weekday year month 1 + day - 1) mod 7.
Proof.
  unfold calendar.weekday, datetime.date_weekday, datetime._ymd2ord.
  generalize (datetime._days_before_year
                (if (datetime.MINYEAR <=? year) && (year <=? datetime.MAXYEAR)
                 then year else 2000 + year mod 400)
              + datetime._days_before_month
                  (if (datetime.MINYEAR <=? year) && (year <=? datetime.MAXYEAR)
                   then year else 2000 + year mod 400) month).
  intros ord. Z.div_mod_to_equations. lia.
Qed.

Lemma days_lookup (before after ndays d : Z) :
  0 <= before -> 1 <= d <= ndays ->
  (replicate (Z.to_nat before) 0 ++ seqZ 1 ndays
   ++ replicate (Z.to_nat after) 0) !! Z.to_nat (before + d - 1)
  = Some d.
Proof.
  intros Hb Hd.
  rewrite lookup_app_r by (rewrite length_replicate; lia).
  rewrite length_replicate.
  rewrite lookup_app_l by (rewrite length_seqZ; lia).
  rewrite lookup_seqZ_lt by lia. f_equal. lia.
Qed.

(** X2. In the grid of a month, day [d] stands in the column of its
    weekday counted from the first weekday: with [before] the number of
    padding cells in front of day 1, day [d] is cell number
    [before + d - 1] in row-major order, and the column of that cell is
    [(weekday(year, month, d) - first_weekday) mod 7]. *)
Theorem month_grid_day_column (dt : datetime.datetime)
    (first_weekday c_firstweekday : Z) :
  1 <= datetime.month dt <= 12 ->
  0 <= first_weekday <= 6 ->
  exists cal day1 ndays,
    month_grid dt first_weekday c_firstweekday = (first_weekday, Ret cal)
    /\ calendar.monthrange (datetime.year dt) (datetime.month dt)
       = Ret (day1, ndays)
    /\ forall d, 1 <= d <= ndays ->
         let i := (day1 - first_weekday) mod 7 + d - 1 in
         exists week,
           cal !! Z.to_nat (i / 7) = Some week
           /\ week !! Z.to_nat (i mod 7) = Some d
           /\ i mod 7
              = (calendar.weekday (datetime.year dt) (datetime.month dt) d
                 - first_weekday) mod 7.
Proof.
  intros Hm Hfw.
  destruct (monthdayscalendar_shape first_weekday (datetime.year dt)
              (datetime.month dt) Hm)
    as (cal & day1 & ndays & days & Hcal & Hrange & Hd1 & Hn & Hdays & ->
        & Hlen).
  eexists _, day1, ndays. rewrite month_grid_run, Hcal by exact Hfw.
  split; [reflexivity|]. split; [exact Hrange|].
  intros d Hd i.
  set (before := (day1 - first_weekday) mod 7) in *.
  set (after := (first_weekday - day1 - ndays) mod 7) in *.
  assert (Hb : 0 <= before < 7) by (apply Z.mod_pos_bound; lia).
  assert (Ha : 0 <= after < 7) by (apply Z.mod_pos_bound; lia).
  set (m := Z.to_nat ((before + ndays + after) / 7)) in *.
  assert (Htotal : Z.of_nat (length days) = before + ndays + after).
  { rewrite Hdays, !length_app, !length_replicate, length_seqZ. lia. }
  assert (Hi : 0 <= i < 7 * Z.of_nat m) by (subst i; lia).
  assert (Hq : 0 <= i / 7 < Z.of_nat m)
    by (split; [apply Z.div_pos; lia | apply Z.div_lt_upper_bound; lia]).
  assert (Hr : 0 <= i mod 7 < 7) by (apply Z.mod_pos_bound; lia).
  destruct (weeks_lookup days m (Z.to_nat (i / 7)) (Z.to_nat (i mod 7)) Hlen)
    as (week & Hweek & Hcell); [lia | lia |].
  exists week. split; [exact Hweek|]. split.
  - rewrite Hcell.
    replace (7 * Z.to_nat (i / 7) + Z.to_nat (i mod 7))%nat with (Z.to_nat i)
      by (pose proof (Z.div_mod i 7); lia).
    rewrite Hdays. subst i. apply days_lookup; lia.
  - rewrite (weekday_of_day _ _ d).
    assert (Hday1 : calendar.weekday (datetime.year dt) (datetime.month dt) 1
                    = day1).
    { unfold calendar.monthrange in Hrange.
      destruct ((1 <=? datetime.month dt) && (datetime.month dt <=? 12));
        [|discriminate].
      by injection Hrange as -> _. }
    rewrite Hday1. subst i before. clear. Z.div_mod_to_equations. lia.
Qed.

Lemma month_grid_day_column_witness :
  exists cal day1 ndays,
    month_grid april_2024 calendar.MONDAY 0 = (calendar.MONDAY, Ret cal)
    /\ calendar.monthrange 2024 4 = Ret (day1, ndays)
    /\ forall d, 1 <= d <= ndays ->
         let i := (day1 - calendar.MONDAY) mod 7 + d - 1 in
         exists week,
           cal !! Z.to_nat (i / 7) = Some week
           /\ week !! Z.to_nat (i mod 7) = Some d
           /\ i mod 7 = (calendar.weekday 2024 4 d - calendar.MONDAY) mod 7.
Proof.
  apply (month_grid_day_column april_2024 calendar.MONDAY 0);
    [simpl; lia | unfold calendar.MONDAY; lia].
Defined.

(** ** The stream of a page drawn by the default renderer *)

Open Scope Q_scope.

Lemma guarded_draw_cell_run font line_width scale_factor day cell c :
  guarded_cell draw_cell font line_width scale_factor day cell c
  = (Canvas.mk (Canvas.gs c) (Canvas.state_stack c)
       (Canvas.stream c
        ++ guarded_cell_ops (Canvas.metrics c) font line_width scale_factor
                            day cell)
       (Canvas.initial_gs c) (Canvas.metrics c),
     Ret tt).
Proof.
  unfold guarded_cell, save_state, guarded_cell_ops, draw_cell_ops, draw_cell.
  destruct (decide (day = 0%Z)) as [->|Hday];
    unfold mbind, py_mbind, py_bind, py_pure, mret, py_mret, py_ret.
  - cbn. unfold Canvas.emit. cbn. by rewrite <- !app_assoc.
  - cbn [Canvas.saveState Canvas.setFont Canvas.setLineWidth Canvas.rect].
    rewrite ordinal_lookup_str. change (seqZ 1 3) with [1; 2; 3]%Z.
    cbn [py_for]. unfold mbind, py_mbind, py_bind, py_ret.
    cbn. unfold Canvas.emit. cbn. by rewrite <- !app_assoc.
Qed.

Lemma py_for_guarded_draw_cell font line_width scale_factor
    (geom : Z -> Z -> Geom.t) (cells : list (Z * Z * Z)) c :
  py_for cells (fun '(row, col, day) =>
    guarded_cell draw_cell font line_width scale_factor day (geom row col)) c
  = (Canvas.mk (Canvas.gs c) (Canvas.state_stack c)
       (Canvas.stream c
        ++ (cells ≫= fun '(row, col, day) =>
              guarded_cell_ops (Canvas.metrics c) font line_width scale_factor
                               day (geom row col)))
       (Canvas.initial_gs c) (Canvas.metrics c),
     Ret tt).
Proof.
  revert c. induction cells as [|[[row col] day] cells IH]; intros c.
  - simpl. rewrite app_nil_r. by destruct c.
  - cbn [py_for]. unfold mbind at 1, py_mbind, py_bind.
    rewrite guarded_draw_cell_run, IH. cbn.
    by rewrite <- app_assoc.
Qed.

Lemma layout_page_draw_cell_run (cal : list (list Z)) (rect : Geom.t)
    (c : Canvas.t) :
  cal ≠ [] ->
  layout_page cal rect draw_cell c
  = (Canvas.mk (Canvas.initial_gs c) []
       (Canvas.stream c ++ page_ops (Canvas.metrics c) cal rect
        ++ [Canvas.OpShowPage])
       (Canvas.initial_gs c) (Canvas.metrics c),
     Ret tt).
Proof.
  intros Hcal. rewrite layout_page_run by exact Hcal.
  unfold mbind at 1, py_mbind at 1, py_bind at 1.
  rewrite (py_for_guarded_draw_cell _ _ _
             (cell_geom (inset_rect rect)
                (even_cellsize (inset_rect rect) (len cal)) (len cal))).
  unfold Canvas.showPage, page_ops. cbn. by rewrite <- app_assoc.
Qed.



(** ** Counting what a page draws *)










Open Scope Z_scope.

(** The whole of [add_calendar_page] with the default renderer. *)
Lemma add_calendar_page_draw_cell_run rect dt first_weekday w :
  1 <= datetime.month dt <= 12 ->
  0 <= default calendar.MONDAY first_weekday <= 6 ->
  exists cal day1 ndays,
    calendar.monthdayscalendar (default calendar.MONDAY first_weekday)
      (datetime.year dt) (datetime.month dt) = Ret cal
    /\ calendar.monthrange (datetime.year dt) (datetime.month dt)
       = Ret (day1, ndays)
    /\ 28 <= ndays <= 31
    /\ cal ≠ []
    /\ Forall (fun week => length week = 7%nat) cal
    /\ filter (fun d : Z => d ≠ 0%Z) (concat cal) = seqZ 1 ndays
    /\ add_calendar_page rect dt draw_cell first_weekday w
       = (mkWorld (default calendar.MONDAY first_weekday)
            (Canvas.mk (Canvas.initial_gs (canvas w)) []
               (Canvas.stream (canvas w)
                ++ page_ops (Canvas.metrics (canvas w)) cal rect
                ++ [Canvas.OpShowPage])
               (Canvas.initial_gs (canvas w)) (Canvas.metrics (canvas w))),
          Ret tt).
Proof.
  intros Hm Hfwd.
  destruct (monthdayscalendar_valid (default calendar.MONDAY first_weekday)
              (datetime.year dt) (datetime.month dt) Hm)
    as (cal & day1 & ndays & Hcal & Hrange & Hn & Hne & Hcols & Hdays).
  exists cal, day1, ndays. do 6 (split; [assumption|]).
  rewrite add_calendar_page_run by exact Hfwd.
  by rewrite Hcal, layout_page_draw_cell_run.
Qed.



(** ** Renderers other than the default *)

Lemma last_snoc_showPage (code : list Canvas.op) :
  last (code ++ [Canvas.OpShowPage]) = Some Canvas.OpShowPage.
Proof. apply last_snoc. Qed.

Lemma guarded_cell_total (cell_cb : cell_renderer) font line_width scale_factor
    day cell c :
  (forall day cell font scale_factor c0,
     exists c2,
       cell_cb day cell font scale_factor c0 = (c2, Ret tt)
       /\ Canvas.state_stack c2 = Canvas.state_stack c0) ->
  exists c3,
    guarded_cell cell_cb font line_width scale_factor day cell c = (c3, Ret tt).
Proof.
  intros Hcb.
  destruct (Hcb day cell font scale_factor (cell_entry font line_width c))
    as (c2 & Hrun & Hstack).
  eexists. by apply guarded_cell_ret.
Qed.

(** X5. A renderer that always returns normally and leaves the canvas's
    state stack as it found it can stand in for the default one: on a grid
    with at least one row the page is rendered to the end, the last
    operation written is [showPage], and the canvas is left in its initial
    graphics state with an empty state stack. *)
Theorem layout_page_any_renderer (cal : list (list Z)) (rect : Geom.t)
    (cell_cb : cell_renderer) (c : Canvas.t) :
  cal ≠ [] ->
  (forall day cell font scale_factor c0,
     exists c2,
       cell_cb day cell font scale_factor c0 = (c2, Ret tt)
       /\ Canvas.state_stack c2 = Canvas.state_stack c0) ->
  exists c',
    layout_page cal rect cell_cb c = (c', Ret tt)
    /\ last (Canvas.stream c') = Some Canvas.OpShowPage
    /\ Canvas.gs c' = Canvas.initial_gs c'
    /\ Canvas.state_stack c' = [].
Proof.
  intros Hcal Hcb. rewrite layout_page_run by exact Hcal.
  unfold mbind at 1, py_mbind at 1, py_bind at 1.
  match goal with |- context [py_for ?xs ?body c] =>
    destruct (py_for_total xs body) with (s := c) as [c1 Hc1]
  end.
  - intros [[row col] day] s _. by apply guarded_cell_total.
  - rewrite Hc1. eexists. split; [reflexivity|].
    split; [apply last_snoc_showPage | by split].
Qed.

Lemma layout_page_any_renderer_witness :
  exists c',
    layout_page [[0; 1]] sample_rect draw_cell fresh_canvas = (c', Ret tt)
    /\ last (Canvas.stream c') = Some Canvas.OpShowPage.
Proof.
  destruct (layout_page_any_renderer [[0; 1]] sample_rect draw_cell
              fresh_canvas) as (c' & Hrun & Hlast & _).
  - discriminate.
  - intros day cell font scale_factor c0. apply draw_cell_total.
  - exists c'. split; [exact Hrun | exact Hlast].
Defined.

(** X6. When the renderer fails at some cell after the cells before it
    were rendered, [add_calendar_page]'s layout stops there with the
    renderer's error: the canvas is exactly as the failing call left it,
    so the guard's restore is not run, no later cell is rendered and the
    page is not finished with [showPage]. *)
Theorem layout_page_renderer_failure (cal : list (list Z)) (rect : Geom.t)
    (cell_cb : cell_renderer) (c c1 c2 : Canvas.t) (e : exn)
    (visited rest : list (Z * Z * Z)) (row col day : Z) :
  let font := page_font rect in
  let line_width := page_line_width rect in
  let scale_factor := page_scale_factor rect in
  let cell (row col : Z) :=
    cell_geom (inset_rect rect) (even_cellsize (inset_rect rect) (len cal))
              (len cal) row col in
  grid_cells cal = visited ++ (row, col, day) :: rest ->
  py_for visited (fun '(row, col, day) =>
    guarded_cell cell_cb font line_width scale_factor day (cell row col)) c
  = (c1, Ret tt) ->
  cell_cb day (cell row col) font scale_factor (cell_entry font line_width c1)
  = (c2, Raise e) ->
  layout_page cal rect cell_cb c = (c2, Raise e).
Proof.
  intros font line_width scale_factor cell Hcells Hdone Hfail.
  assert (Hcal : cal ≠ []) by (intros ->; by destruct visited).
  rewrite layout_page_run by exact Hcal.
  fold font line_width scale_factor.
  unfold mbind at 1, py_mbind at 1, py_bind at 1.
  rewrite Hcells, py_for_app.
  unfold mbind at 1, py_mbind at 1, py_bind at 1.
  fold (cell row col) in *.
  change (py_for visited _ c) with
    (py_for visited (fun '(row, col, day) =>
       guarded_cell cell_cb font line_width scale_factor day (cell row col)) c).
  rewrite Hdone. cbn [py_for].
  unfold mbind at 1, py_mbind at 1, py_bind at 1.
  change (cell_geom (inset_rect rect)
            (even_cellsize (inset_rect rect) (len cal)) (len cal) row col)
    with (cell row col).
  by rewrite (guarded_cell_raise _ _ _ _ _ _ _ _ _ Hfail).
Qed.

Lemma layout_page_renderer_failure_witness :
  exists c2,
    layout_page [[1; 2]] sample_rect failing_renderer fresh_canvas
    = (c2, Raise (RenderError "cannot draw"))
    /\ last (Canvas.stream c2) = Some (Canvas.OpSetLineWidth 5).
Proof.
  eexists. split.
  - apply (layout_page_renderer_failure [[1; 2]] sample_rect failing_renderer
             fresh_canvas fresh_canvas _ _ [] [(0, 1, 2)] 0 0 1);
      reflexivity.
  - reflexivity.
Defined.

Lemma add_calendar_page_illegal_weekday rect dt (cell_cb : cell_renderer)
    first_weekday w :
  ~ 0 <= default calendar.MONDAY first_weekday <= 6 ->
  add_calendar_page rect dt cell_cb first_weekday w
  = (w, Raise (IllegalWeekdayError (default calendar.MONDAY first_weekday))).
Proof.
  intros Hfwd. unfold add_calendar_page.
  unfold mbind, py_mbind, py_bind, on_calendar, month_grid,
    calendar_setfirstweekday, calendar.MONDAY, calendar.SUNDAY in *.
  replace ((0 <=? default 0 first_weekday) && (default 0 first_weekday <=? 6))
    with false
    by (symmetry; apply andb_false_iff; rewrite Z.leb_gt, Z.leb_gt; lia).
  by destruct w.
Qed.

Lemma add_calendar_page_illegal_month rect dt (cell_cb : cell_renderer)
    first_weekday w :
  0 <= default calendar.MONDAY first_weekday <= 6 ->
  ~ 1 <= datetime.month dt <= 12 ->
  add_calendar_page rect dt cell_cb first_weekday w
  = (mkWorld (default calendar.MONDAY first_weekday) (canvas w),
     Raise (IllegalMonthError (datetime.month dt))).
Proof.
  intros Hfwd Hm. rewrite add_calendar_page_run by exact Hfwd.
  unfold calendar.monthdayscalendar, calendar.itermonthdays,
    calendar.monthrange.
  replace ((1 <=? datetime.month dt) && (datetime.month dt <=? 12))
    with false
    by (symmetry; apply andb_false_iff; rewrite Z.leb_gt, Z.leb_gt; lia).
  reflexivity.
Qed.

(** X7. Bad arguments are reported before anything is drawn.  A first
    weekday outside 0..6 raises IllegalWeekdayError and leaves both the
    [calendar] module's setting and the canvas as they were.  With a first
    weekday in range, a month outside 1..12 raises IllegalMonthError with
    the canvas untouched, the first weekday being stored already. *)
Theorem add_calendar_page_bad_arguments (rect : Geom.t)
    (dt : datetime.datetime) (cell_cb : cell_renderer)
    (first_weekday : option Z) (w : World) :
  let fwd := default calendar.MONDAY first_weekday in
  (~ 0 <= fwd <= 6 ->
   add_calendar_page rect dt cell_cb first_weekday w
   = (w, Raise (IllegalWeekdayError fwd)))
  /\ (0 <= fwd <= 6 -> ~ 1 <= datetime.month dt <= 12 ->
      add_calendar_page rect dt cell_cb first_weekday w
      = (mkWorld fwd (canvas w),
         Raise (IllegalMonthError (datetime.month dt)))).
Proof.
  intros fwd. split.
  - apply add_calendar_page_illegal_weekday.
  - apply add_calendar_page_illegal_month.
Qed.

Lemma add_calendar_page_bad_arguments_witness :
  add_calendar_page sample_rect april_2024 draw_cell (Some 7) fresh_world
  = (fresh_world, Raise (IllegalWeekdayError 7))
  /\ add_calendar_page sample_rect (datetime.Build_datetime 2024 13) draw_cell
       (Some calendar.SUNDAY) fresh_world
     = (mkWorld calendar.SUNDAY fresh_canvas, Raise (IllegalMonthError 13)).
Proof.
  split.
  - apply (add_calendar_page_bad_arguments sample_rect april_2024 draw_cell
             (Some 7) fresh_world). simpl. lia.
  - apply (add_calendar_page_bad_arguments sample_rect
             (datetime.Build_datetime 2024 13) draw_cell
             (Some calendar.SUNDAY) fresh_world);
      simpl; unfold calendar.SUNDAY; lia.
Defined.

(** ** The page orchestrator *)

Lemma page_ops_stream_closed metrics cal rect :
  page_has_content (page_ops metrics cal rect ++ [Canvas.OpShowPage]) = false.
Proof. unfold page_has_content. by rewrite last_snoc. Qed.

Lemma generate_pdf_run rl dt outfile size first_weekday m :
  1 <= datetime.month dt <= 12 ->
  0 <= default calendar.MONDAY first_weekday <= 6 ->
  exists cal day1 ndays,
    calendar.monthrange (datetime.year dt) (datetime.month dt)
    = Ret (day1, ndays)
    /\ cal ≠ []
    /\ Forall (fun week => length week = 7%nat) cal
    /\ filter (fun d : Z => d ≠ 0) (concat cal) = seqZ 1 ndays
    /\ generate_pdf rl dt outfile size first_weekday m
       = (mkMachine (default calendar.MONDAY first_weekday)
            (<[outfile :=
                 mkDocument (Size.mk (fst size) (snd size))
                   (page_ops (rl_metrics rl) cal
                      (content_rect (Size.mk (fst size) (snd size)))
                    ++ [Canvas.OpShowPage])]> (m_files m)),
          Ret tt).
Proof.
  intros Hm Hfwd.
  destruct (add_calendar_page_draw_cell_run
              (content_rect (Size.mk (fst size) (snd size))) dt
              (Some (default calendar.MONDAY first_weekday))
              (mkWorld (m_firstweekday m) (Canvas_new rl)) Hm Hfwd)
    as (cal & day1 & ndays & _ & Hrange & _ & Hne & Hcols & Hdays & Hrun).
  exists cal, day1, ndays. do 4 (split; [assumption|]).
  unfold generate_pdf. rewrite Hrun.
  cbn [default canvas Canvas_new Canvas.stream Canvas.metrics app].
  unfold Canvas_save. cbn [Canvas.stream].
  by rewrite page_ops_stream_closed.
Qed.



(** X9. When the first weekday is outside 0..6, [generate_pdf] raises
    IllegalWeekdayError and nothing changes: no file is written or
    replaced and the [calendar] module keeps its setting.  With a month
    outside 1..12 it raises IllegalMonthError and the files are as
    before. *)
Theorem generate_pdf_bad_arguments (rl : Reportlab) (dt : datetime.datetime)
    (outfile : string) (size : Q * Q) (first_weekday : option Z)
    (m : Machine) :
  let fwd := default calendar.MONDAY first_weekday in
  (~ 0 <= fwd <= 6 ->
   generate_pdf rl dt outfile size first_weekday m
   = (m, Raise (IllegalWeekdayError fwd)))
  /\ (0 <= fwd <= 6 -> ~ 1 <= datetime.month dt <= 12 ->
      generate_pdf rl dt outfile size first_weekday m
      = (mkMachine fwd (m_files m),
         Raise (IllegalMonthError (datetime.month dt)))).
Proof.
  intros fwd. split.
  - intros Hfwd. unfold generate_pdf. fold fwd.
    rewrite add_calendar_page_illegal_weekday by exact Hfwd.
    by destruct m.
  - intros Hfwd Hm. unfold generate_pdf. fold fwd.
    by rewrite add_calendar_page_illegal_month.
Qed.

Lemma generate_pdf_bad_arguments_witness :
  generate_pdf sample_reportlab april_2024 "calendar.pdf" letter_landscape
               (Some 7) empty_machine
  = (empty_machine, Raise (IllegalWeekdayError 7))
  /\ generate_pdf sample_reportlab (datetime.Build_datetime 2024 0)
       "calendar.pdf" letter_landscape None empty_machine
     = (empty_machine, Raise (IllegalMonthError 0)).
Proof.
  split.
  - apply (generate_pdf_bad_arguments sample_reportlab april_2024
             "calendar.pdf" letter_landscape (Some 7) empty_machine).
    simpl. lia.
  - apply (generate_pdf_bad_arguments sample_reportlab
             (datetime.Build_datetime 2024 0) "calendar.pdf" letter_landscape
             None empty_machine); simpl; unfold calendar.MONDAY; lia.
Defined.

(** ** Where a page draws *)

Open Scope Q_scope.

Lemma inject_Z_nonneg (k : Z) : (0 <= k)%Z -> 0 <= inject_Z k.
Proof. intros H. change 0 with (inject_Z 0). by rewrite <- Zle_Qle. Qed.

Lemma inject_Z_le (a b : Z) : (a <= b)%Z -> inject_Z a <= inject_Z b.
Proof. intros H. by rewrite <- Zle_Qle. Qed.

Lemma border_within_weaken (inner outer : Geom.t) (o : Canvas.op) :
  Geom.x outer <= Geom.x inner ->
  Geom.x inner + Geom.width inner <= Geom.x outer + Geom.width outer ->
  Geom.y outer <= Geom.y inner ->
  Geom.y inner + Geom.height inner <= Geom.y outer + Geom.height outer ->
  border_within inner o -> border_within outer o.
Proof.
  intros Hx Hxw Hy Hyh. destruct o; simpl; try done.
  intros (? & ? & ? & ?). repeat split; lra.
Qed.

(** The inset rectangle lies within the page rectangle. *)
Lemma inset_rect_within (rect : Geom.t) (o : Canvas.op) :
  0 < Geom.width rect -> 0 < Geom.height rect ->
  border_within (inset_rect rect) o -> border_within rect o.
Proof.
  intros Hw Hh. apply border_within_weaken;
    unfold inset_rect, page_line_width, page_scale_factor;
    cbn [Geom.x Geom.y Geom.width Geom.height];
    destruct (Q.min_spec (Geom.width rect) (Geom.height rect))
      as [[? Hmin]|[? Hmin]]; rewrite Hmin; lra.
Qed.

(** The border [draw_cell] strokes for a cell of the grid lies within the
    rectangle the grid divides. *)
Lemma cell_border_within (rect : Geom.t) (rows row col : Z) :
  0 < Geom.width rect -> 0 < Geom.height rect ->
  (0 <= row < rows)%Z -> (0 <= col < 7)%Z ->
  let cell := cell_geom rect (even_cellsize rect rows) rows row col in
  border_within rect
    (Canvas.OpRect (Geom.x cell) (Geom.y cell - Geom.height cell)
                   (Geom.width cell) (Geom.height cell)).
Proof.
  intros Hw Hh Hrow Hcol cell. subst cell.
  assert (Hrows : (0 < rows)%Z) by lia.
  destruct (cellsize_pos rect rows Hrows Hw Hh) as [Hcw Hch].
  pose proof (cellsize_columns rect rows) as Hcols.
  pose proof (cellsize_rows rect rows Hrows) as Hrws.
  pose proof (inject_Z_nonneg col ltac:(lia)) as Hc0.
  pose proof (inject_Z_le col 6 ltac:(lia)) as Hc6.
  pose proof (inject_Z_le 1 (rows - row) ltac:(lia)) as Hr1.
  pose proof (inject_Z_le (rows - row) rows ltac:(lia)) as Hrn.
  change (inject_Z 6) with 6 in Hc6. change (inject_Z 1) with 1 in Hr1.
  unfold border_within, cell_geom.
  cbn [Geom.x Geom.y Geom.width Geom.height].
  repeat split; nra.
Qed.

Lemma guarded_cell_ops_within (rect : Geom.t) metrics font line_width
    scale_factor (rows row col day : Z) :
  0 < Geom.width rect -> 0 < Geom.height rect ->
  (0 <= row < rows)%Z -> (0 <= col < 7)%Z ->
  Forall (border_within rect)
    (guarded_cell_ops metrics font line_width scale_factor day
       (cell_geom rect (even_cellsize rect rows) rows row col)).
Proof.
  intros Hw Hh Hrow Hcol. unfold guarded_cell_ops, draw_cell_ops.
  destruct (decide (day = 0%Z)); cbn [app];
    repeat (apply Forall_cons; split;
            [first [exact I | by apply cell_border_within]|]);
    constructor.
Qed.

(** Every border of a page lies within the inset rectangle. *)
Lemma page_ops_within metrics (cal : list (list Z)) (rect : Geom.t) :
  0 < Geom.width rect -> 0 < Geom.height rect ->
  Forall (fun week => length week = 7%nat) cal ->
  Forall (border_within (inset_rect rect)) (page_ops metrics cal rect).
Proof.
  intros Hw Hh Hcols.
  destruct (inset_rect_positive rect Hw Hh) as [Hiw Hih].
  unfold page_ops. apply Forall_bind, Forall_forall.
  intros [[row col] day] Hin.
  assert (Hpos : (row, col) ∈ grid_positions (len cal)).
  { rewrite <- (grid_cells_positions cal Hcols).
    apply list_elem_of_fmap. by exists (row, col, day). }
  apply elem_of_grid_positions in Hpos as [Hrow Hcol].
  by apply guarded_cell_ops_within.
Qed.



Lemma content_rect_margins (size : Size.t) :
  Geom.x (content_rect size) == Size.width size / 50
  /\ Geom.x (content_rect size) + Geom.width (content_rect size)
     == Size.width size - Size.width size / 50
  /\ Geom.y (content_rect size) == Size.height size / 50
  /\ Geom.y (content_rect size) + Geom.height (content_rect size)
     == Size.height size - Size.height size / 50
  /\ Geom.width (content_rect size) == Size.width size * 0.96
  /\ Geom.height (content_rect size) == Size.height size * 0.96.
Proof.
  unfold content_rect. cbn [Geom.x Geom.y Geom.width Geom.height
                            Size.width Size.height].
  repeat split; field.
Qed.

(** X11. For a page of positive width and height, [generate_pdf] keeps a
    margin of one fiftieth of the page width on the left and right and one
    fiftieth of the page height at the bottom and top: every border in the
    saved document lies within the content rectangle, whose edges are at
    width/50, width - width/50, height/50 and height - height/50. *)
Theorem generate_pdf_margins (rl : Reportlab) (dt : datetime.datetime)
    (outfile : string) (size : Q * Q) (first_weekday : option Z)
    (m : Machine) :
  0 < fst size -> 0 < snd size ->
  (1 <= datetime.month dt <= 12)%Z ->
  (0 <= default calendar.MONDAY first_weekday <= 6)%Z ->
  exists m' doc,
    generate_pdf rl dt outfile size first_weekday m = (m', Ret tt)
    /\ m_files m' !! outfile = Some doc
    /\ Forall (fun o =>
         match o with
         | Canvas.OpRect x y width height =>
             fst size / 50 <= x /\ x + width <= fst size - fst size / 50
             /\ snd size / 50 <= y /\ y + height <= snd size - snd size / 50
         | _ => True
         end) (doc_stream doc).
Proof.
  intros Hw Hh Hm Hfwd.
  destruct (generate_pdf_run rl dt outfile size first_weekday m Hm Hfwd)
    as (cal & day1 & ndays & _ & _ & Hcols & _ & Hrun).
  eexists _, _. split; [exact Hrun|].
  split; [apply lookup_insert_eq|].
  cbn [doc_stream].
  set (page := Size.mk (fst size) (snd size)).
  destruct (content_rect_margins page) as (Hx & Hxw & Hy & Hyh & Hcw & Hch).
  cbn [page Size.width Size.height] in Hx, Hxw, Hy, Hyh, Hcw, Hch.
  assert (Hcwpos : 0 < Geom.width (content_rect page)) by (rewrite Hcw; lra).
  assert (Hchpos : 0 < Geom.height (content_rect page)) by (rewrite Hch; lra).
  apply Forall_app. split; [|by repeat constructor].
  eapply Forall_impl; [exact (page_ops_within _ cal _ Hcwpos Hchpos Hcols)|].
  intros o Hin.
  apply (inset_rect_within _ _ Hcwpos Hchpos) in Hin.
  destruct o; try exact I. simpl in Hin.
  destruct Hin as (? & ? & ? & ?). repeat split; lra.
Qed.

Lemma generate_pdf_margins_witness :
  exists m' doc,
    generate_pdf sample_reportlab april_2024 "calendar.pdf" letter_landscape
                 None empty_machine
    = (m', Ret tt)
    /\ m_files m' !! "calendar.pdf" = Some doc
    /\ Forall (fun o =>
         match o with
         | Canvas.OpRect x y width height =>
             792 / 50 <= x /\ x + width <= 792 - 792 / 50
             /\ 612 / 50 <= y /\ y + height <= 612 - 612 / 50
         | _ => True
         end) (doc_stream doc).
Proof.
  apply (generate_pdf_margins sample_reportlab april_2024 "calendar.pdf"
           letter_landscape None empty_machine);
    [reflexivity | reflexivity | simpl; lia
    | simpl; unfold calendar.MONDAY; lia].
Defined.

(** X12. On a page rectangle of positive width and height divided into 1
    to 6 rows, the text the default renderer puts into a cell starts
    inside the cell: the day number's baseline is below the cell's top
    edge, the baseline of the third filler line is above the cell's bottom
    edge, and the left end of every line is between the cell's left and
    right edges. *)
Theorem draw_cell_text_inside (rect : Geom.t) (rows row col : Z) :
  0 < Geom.width rect -> 0 < Geom.height rect ->
  (1 <= rows <= 6)%Z ->
  let font := page_font rect in
  let small := small_font (page_scale_factor rect) in
  let inset := inset_rect rect in
  let cell := cell_geom inset (even_cellsize inset rows) rows row col in
  let margin := cell_margin font in
  let text_x := Geom.x cell + Size.width margin in
  let text_y := Geom.y cell - Size.height margin in
  Geom.x cell < text_x < Geom.x cell + Geom.width cell
  /\ text_y < Geom.y cell
  /\ Geom.y cell - Geom.height cell < text_y - Font.size small * inject_Z 3.
Proof.
  intros Hw Hh Hrows font small inset cell margin text_x text_y.
  destruct (inset_rect_positive rect Hw Hh) as [Hiw Hih].
  assert (Hrpos : (0 < rows)%Z) by lia.
  destruct (cellsize_pos inset rows Hrpos Hiw Hih) as [Hcw Hch].
  pose proof (cellsize_columns inset rows) as Hcols.
  pose proof (cellsize_rows inset rows Hrpos) as Hrws.
  pose proof (inject_Z_le rows 6 ltac:(lia)) as Hr6.
  pose proof (inject_Z_le 1 rows ltac:(lia)) as Hr1.
  change (inject_Z 6) with 6 in Hr6. change (inject_Z 1) with 1 in Hr1.
  assert (Hsf : 0 < page_scale_factor rect
                /\ page_scale_factor rect <= Geom.width rect
                /\ page_scale_factor rect <= Geom.height rect).
  { unfold page_scale_factor.
    pose proof (Q.le_min_l (Geom.width rect) (Geom.height rect)).
    pose proof (Q.le_min_r (Geom.width rect) (Geom.height rect)).
    destruct (Q.min_spec (Geom.width rect) (Geom.height rect))
      as [[? Hmin]|[? Hmin]]; rewrite Hmin; repeat split; lra. }
  destruct Hsf as (Hs0 & Hsw & Hsh).
  subst text_x text_y cell margin small font.
  unfold cell_geom, cell_margin, small_font, page_font.
  cbn [Geom.x Geom.y Geom.width Geom.height Size.width Size.height Font.size].
  change (inject_Z 3) with 3.
  subst inset. unfold inset_rect, page_line_width in *.
  cbn [Geom.x Geom.y Geom.width Geom.height] in *.
  set (sf := page_scale_factor rect) in *.
  set (cw := Size.width _) in *. set (ch := Size.height _) in *.
  repeat split; nra.
Qed.

Lemma draw_cell_text_inside_witness :
  let font := page_font sample_rect in
  let small := small_font (page_scale_factor sample_rect) in
  let inset := inset_rect sample_rect in
  let cell := cell_geom inset (even_cellsize inset 6) 6 5 0 in
  let text_y := Geom.y cell - Size.height (cell_margin font) in
  Geom.y cell - Geom.height cell < text_y - Font.size small * inject_Z 3.
Proof.
  apply (draw_cell_text_inside sample_rect 6 5 0);
    [reflexivity | reflexivity | lia].
Defined.

Lemma Qmin_scale (k a b : Q) : 0 <= k -> Qmin (a * k) (b * k) == Qmin a b * k.
Proof.
  intros Hk. destruct (Q.min_spec a b) as [[Hlt ->]|[Hle ->]].
  - rewrite Q.min_l; [reflexivity | nra].
  - rewrite Q.min_r; [reflexivity | nra].
Qed.

(** X13. In a document made by [generate_pdf] all sizes are fixed
    fractions of the shorter side of the page: with the margins taken off,
    the scale factor is 0.96 of it, the line width 0.0024, the font size of
    the day numbers 0.02688 and that of the filler lines 0.01728. *)
Theorem generate_pdf_scale (size : Size.t) :
  let shorter := Qmin (Size.width size) (Size.height size) in
  let rect := content_rect size in
  page_scale_factor rect == shorter * 0.96
  /\ page_line_width rect == shorter * 0.0024
  /\ Font.size (page_font rect) == shorter * 0.02688
  /\ Font.size (small_font (page_scale_factor rect)) == shorter * 0.01728.
Proof.
  intros shorter rect.
  assert (Hsf : page_scale_factor rect == shorter * 0.96).
  { subst rect shorter. unfold page_scale_factor.
    destruct (content_rect_margins size) as (_ & _ & _ & _ & -> & ->).
    apply Qmin_scale. lra. }
  split; [exact Hsf|].
  unfold page_line_width, page_font, small_font. cbn [Font.size].
  rewrite Hsf. repeat split; ring.
Qed.

Open Scope Z_scope.


